(** * event-sdk: the event message model ([src/model/EventMessage.ts])

    A shallow embedding of the TypeScript module: the identifier patterns
    [TRACE_ID_REGEX] / [SPAN_ID_REGEX], the type/action hierarchy
    ([EventTypeAction] and its four concrete classes), [EventTraceMetadata]
    with its validating constructor and [finish], [EventMetadata] with its
    factories, and the identifier generators [newTraceId] / [newSpanId].

    Conventions.
    - A JavaScript string is a [string]; the classes of the two patterns only
      contain characters below code 128.
    - A constructor or method that can [throw] returns a [result]: either
      the exception ([Throw]) or the value ([Ok]).  A [new] expression whose
      constructor throws yields no object at all.
    - [new Date()] reads the clock; every operation that does so takes the
      clock reading [now] (milliseconds since the epoch) as an argument.
    - [crypto.randomBytes] reads the random source; it is an explicit stream
      of bytes that is threaded through the generators. *)

From Stdlib Require Import String Ascii List ZArith NArith Lia Bool PeanoNat.
From Stdlib.Strings Require Import Byte.
From Stdlib.Floats Require Import PrimFloat.
Import ListNotations.
Open Scope string_scope.

Set Implicit Arguments.

(* ================================================================== *)
(** ** Runtime: exceptions *)

Inductive exn : Type :=
| Error (message : string)
| RangeError (message : string).

Inductive result (A : Type) : Type :=
| Ok (value : A)
| Throw (e : exn).
Arguments Ok {A} value.
Arguments Throw {A} e.

Definition bind {A B : Type} (m : result A) (k : A -> result B) : result B :=
  match m with
  | Ok a => k a
  | Throw e => Throw e
  end.

Declare Scope js_scope.
Delimit Scope js_scope with js.
Notation "x <- m ;; k" := (bind m (fun x => k))
  (at level 61, m at next level, right associativity) : js_scope.
Notation "m ;; k" := (bind m (fun _ => k))
  (at level 61, right associativity) : js_scope.
Open Scope js_scope.

(** [if (cond) { throw e }] *)
Definition throwIf (cond : bool) (e : exn) : result unit :=
  if cond then Throw e else Ok tt.

(** Truthiness of a string value: only the empty string is falsy. *)
Definition truthy (s : string) : bool :=
  match s with
  | EmptyString => false
  | String _ _ => true
  end.

(** Truthiness of an optional string ([undefined] is falsy). *)
Definition truthyOpt (o : option string) : bool :=
  match o with
  | None => false
  | Some s => truthy s
  end.

(* ================================================================== *)
(** ** Runtime: regular expressions

    The fragment of the pattern language the module uses: the assertions
    [^] and [$] (no [m] flag), a character class of single characters and
    ranges, the exact quantifier [{n}], and sequencing.  [run] returns every
    state the pattern can end in; [test] tries the start indices
    [0 .. length] in turn, as [RegExp.prototype.test] does for a pattern
    without the [g] or [y] flag. *)

Module RegExp.

Inductive ClassAtom : Type :=
| ClassChar (c : ascii)
| ClassRange (lo hi : ascii).

Inductive Pattern : Type :=
| AssertStart
| AssertEnd
| CharClass (atoms : list ClassAtom)
| Repeat (p : Pattern) (n : nat)
| Seq (p q : Pattern).

Definition atomMatches (c : ascii) (a : ClassAtom) : bool :=
  match a with
  | ClassChar x => (N_of_ascii c =? N_of_ascii x)%N
  | ClassRange lo hi =>
      (N_of_ascii lo <=? N_of_ascii c)%N && (N_of_ascii c <=? N_of_ascii hi)%N
  end.

Definition classMatches (atoms : list ClassAtom) (c : ascii) : bool :=
  existsb (atomMatches c) atoms.

(** A matcher state: the current index and the input from there on. *)
Definition State : Type := (nat * list ascii)%type.

Fixpoint iter (n : nat) (m : State -> list State) (x : State) : list State :=
  match n with
  | O => [x]
  | S k => flat_map (iter k m) (m x)
  end.

Fixpoint run (p : Pattern) (x : State) : list State :=
  match p with
  | AssertStart => if Nat.eqb (fst x) 0 then [x] else []
  | AssertEnd => match snd x with [] => [x] | _ :: _ => [] end
  | CharClass atoms =>
      match snd x with
      | c :: rest => if classMatches atoms c then [(S (fst x), rest)] else []
      | [] => []
      end
  | Repeat q n => iter n (run q) x
  | Seq q r => flat_map (run r) (run q x)
  end.

Definition matchesAt (p : Pattern) (input : list ascii) (i : nat) : bool :=
  match run p (i, skipn i input) with
  | [] => false
  | _ :: _ => true
  end.

Definition test (p : Pattern) (s : string) : bool :=
  let input := list_ascii_of_string s in
  existsb (matchesAt p input) (seq 0 (S (List.length input))).

(** [^[atoms]{n}$] *)
Definition anchoredClass (atoms : list ClassAtom) (n : nat) : Pattern :=
  Seq AssertStart (Seq (Repeat (CharClass atoms) n) AssertEnd).

End RegExp.

Import RegExp.

(** [const TRACE_ID_REGEX = /^[0-9abcdef]{32}$/] *)
Definition TRACE_ID_REGEX : Pattern :=
  Seq AssertStart
    (Seq (Repeat (CharClass [ClassRange "0" "9"; ClassChar "a"; ClassChar "b";
                             ClassChar "c"; ClassChar "d"; ClassChar "e";
                             ClassChar "f"]) 32)
         AssertEnd).

(** [const SPAN_ID_REGEX = /^[0-9abcdef]{16}$/] *)
Definition SPAN_ID_REGEX : Pattern :=
  Seq AssertStart
    (Seq (Repeat (CharClass [ClassRange "0" "9"; ClassChar "a"; ClassChar "b";
                             ClassChar "c"; ClassChar "d"; ClassChar "e";
                             ClassChar "f"]) 16)
         AssertEnd).

(** The character class [[0-9abcdef]] that both patterns use. *)
Definition sourceHexClass : list ClassAtom :=
  [ClassRange "0" "9"; ClassChar "a"; ClassChar "b"; ClassChar "c";
   ClassChar "d"; ClassChar "e"; ClassChar "f"].

(** The specification's side of the identifier checks: the patterns
    [^[0-9a-f]{32}$] and [^[0-9a-f]{16}$] as the specification writes them,
    and "exactly [n] lowercase hex characters" in words. *)
Module IdSpec.

Definition hexClass : list ClassAtom :=
  [ClassRange "0" "9"; ClassRange "a" "f"].

Definition hexPattern (n : nat) : Pattern :=
  Seq AssertStart (Seq (Repeat (CharClass hexClass) n) AssertEnd).

Definition lowercaseHexChars : list ascii :=
  list_ascii_of_string "0123456789abcdef".

Definition isLowercaseHex (c : ascii) : Prop := In c lowercaseHexChars.

(** The same membership, as a test. *)
Definition inHexChars (c : ascii) : bool :=
  existsb (Ascii.eqb c) lowercaseHexChars.

Definition lowercaseHexOfLength (n : nat) (s : string) : Prop :=
  String.length s = n /\ Forall isLowercaseHex (list_ascii_of_string s).

End IdSpec.

Import IdSpec.

(* ================================================================== *)
(** ** Runtime: numbers, dates and the clock *)

(** A JavaScript [number] is an IEEE 754 double.  The module only stores
    numbers ([sampled], [flags], [code]); it never computes with them. *)
Definition number : Type := float.

Module Date.

(** A [Date] object holds a time value: milliseconds since the epoch, or
    NaN (an "Invalid Date"), here [None]. *)
Record t : Type := { timeValue : option Z }.

(** [new Date()] at clock reading [now]. *)
Definition new (now : Z) : t := {| timeValue := Some now |}.

Definition digit (n : Z) : ascii := ascii_of_N (48 + Z.to_N n).

(** The last [width] decimal digits of [n], zero padded. *)
Fixpoint padded (width : nat) (n : Z) : string :=
  match width with
  | O => ""
  | S w => padded w (n / 10) ++ String (digit (n mod 10)) ""
  end.

(** Year, month and day of the proleptic Gregorian calendar for a day
    number counted from 1970-01-01. *)
Definition civil (day : Z) : Z * Z * Z :=
  let z := (day + 719468)%Z in
  let era := (z / 146097)%Z in
  let doe := (z mod 146097)%Z in
  let yoe := ((doe - doe / 1460 + doe / 36524 - doe / 146096) / 365)%Z in
  let doy := (doe - (365 * yoe + yoe / 4 - yoe / 100))%Z in
  let mp := ((5 * doy + 2) / 153)%Z in
  let d := (doy - (153 * mp + 2) / 5 + 1)%Z in
  let m := (if mp <? 10 then mp + 3 else mp - 9)%Z in
  let y := (yoe + era * 400 + (if m <=? 2 then 1 else 0))%Z in
  (y, m, d).

Definition yearString (y : Z) : string :=
  if ((0 <=? y) && (y <=? 9999))%Z then padded 4 y
  else (if (y <? 0)%Z then "-" else "+") ++ padded 6 (Z.abs y).

(** The ISO 8601 form [YYYY-MM-DDTHH:mm:ss.sssZ] of a time value. *)
Definition isoOfTime (tv : Z) : string :=
  let '(y, m, d) := civil (tv / 86400000) in
  let ms := (tv mod 86400000)%Z in
  yearString y ++ "-" ++ padded 2 m ++ "-" ++ padded 2 d ++ "T"
    ++ padded 2 (ms / 3600000) ++ ":" ++ padded 2 (ms / 60000 mod 60) ++ ":"
    ++ padded 2 (ms / 1000 mod 60) ++ "." ++ padded 3 (ms mod 1000) ++ "Z".

(** [Date.prototype.toISOString]: raises a [RangeError] on an Invalid Date. *)
Definition toISOString (d : t) : result string :=
  match timeValue d with
  | Some tv => Ok (isoOfTime tv)
  | None => Throw (RangeError "Invalid time value")
  end.

End Date.

(** A value of type [string | Date]; [x instanceof Date] holds for [IsDate]. *)
Inductive StringOrDate : Type :=
| IsString (s : string)
| IsDate (d : Date.t).

(* ================================================================== *)
(** ** Event types and actions (string enums) *)

Module EventType.
Inductive t : Type := undefined | log | audit | error | trace.
Definition value (x : t) : string :=
  match x with
  | undefined => "undefined"
  | log => "log"
  | audit => "audit"
  | error => "error"
  | trace => "trace"
  end.
End EventType.

Module LogEventAction.
Inductive t : Type := info | debug | verbose | perf.
Definition value (x : t) : string :=
  match x with
  | info => "info"
  | debug => "debug"
  | verbose => "verbose"
  | perf => "perf"
  end.
End LogEventAction.

Module AuditEventAction.
Inductive t : Type := default.
Definition value (x : t) : string := match x with default => "default" end.
End AuditEventAction.

Module ErrorEventAction.
Inductive t : Type := internal | external.
Definition value (x : t) : string :=
  match x with
  | internal => "internal"
  | external => "external"
  end.
End ErrorEventAction.

Module TraceEventAction.
Inductive t : Type := span.
Definition value (x : t) : string := match x with span => "span" end.
End TraceEventAction.

Module NullEventAction.
Inductive t : Type := undefined.
Definition value (x : t) : string := match x with undefined => "undefined" end.
End NullEventAction.

(** [type EventAction = AuditEventAction | ErrorEventAction | LogEventAction
                      | TraceEventAction | NullEventAction] *)
Module EventAction.
Inductive t : Type :=
| Audit (a : AuditEventAction.t)
| Error (a : ErrorEventAction.t)
| Log (a : LogEventAction.t)
| Trace (a : TraceEventAction.t)
| Null (a : NullEventAction.t).

(** The runtime value of an action: the string of its enum member. *)
Definition value (x : t) : string :=
  match x with
  | Audit a => AuditEventAction.value a
  | Error a => ErrorEventAction.value a
  | Log a => LogEventAction.value a
  | Trace a => TraceEventAction.value a
  | Null a => NullEventAction.value a
  end.
End EventAction.

(** A union [A | NullEventAction], the parameter type of each concrete
    [EventTypeAction] constructor. *)
Inductive OrNull (A : Type) : Type :=
| Action (a : A)
| NoAction (n : NullEventAction.t).
Arguments Action {A} a.
Arguments NoAction {A} n.

(** The [EventTypeAction] hierarchy: the abstract class has exactly the four
    concrete subclasses below, each with a one-argument constructor that
    stores its argument in [action]. *)
Module EventTypeAction.

Inductive t : Type :=
| LogEventTypeAction (action : OrNull LogEventAction.t)
| AuditEventTypeAction (action : OrNull AuditEventAction.t)
| ErrorEventTypeAction (action : OrNull ErrorEventAction.t)
| TraceEventTypeAction (action : OrNull TraceEventAction.t).

(** [getType()]: each subclass returns its own static [type]. *)
Definition getType (ta : t) : EventType.t :=
  match ta with
  | LogEventTypeAction _ => EventType.log
  | AuditEventTypeAction _ => EventType.audit
  | ErrorEventTypeAction _ => EventType.error
  | TraceEventTypeAction _ => EventType.trace
  end.

Definition widen {A : Type} (inj : A -> EventAction.t) (a : OrNull A)
  : EventAction.t :=
  match a with
  | Action x => inj x
  | NoAction n => EventAction.Null n
  end.

(** The [action] field, read at the type [EventAction] of the base class. *)
Definition action (ta : t) : EventAction.t :=
  match ta with
  | LogEventTypeAction a => widen EventAction.Log a
  | AuditEventTypeAction a => widen EventAction.Audit a
  | ErrorEventTypeAction a => widen EventAction.Error a
  | TraceEventTypeAction a => widen EventAction.Trace a
  end.

End EventTypeAction.

Import EventTypeAction.

(** The compatibility table of the specification: the legal action set of
    each category, as runtime strings. *)
Definition legalActions (c : EventType.t) : list string :=
  match c with
  | EventType.undefined => []
  | EventType.log => ["info"; "debug"; "verbose"; "perf"]
  | EventType.audit => ["default"]
  | EventType.error => ["internal"; "external"]
  | EventType.trace => ["span"]
  end.

Module EventStatusType.
Inductive t : Type := success | failed.
Definition value (x : t) : string :=
  match x with
  | success => "success"
  | failed => "failed"
  end.
End EventStatusType.

(* ================================================================== *)
(** ** [class EventTraceMetadata] *)

Module EventTraceMetadata.

Record t : Type := {
  service : string;
  traceId : string;
  spanId : string;
  parentSpanId : option string;
  sampled : option number;
  flags : option number;
  startTimestamp : option string;
  finishTimestamp : option string
}.

(** The constructor.  The field initialiser of [startTimestamp] runs
    first and reads the clock; the body then validates the identifiers in
    order and throws at the first one that fails.  [finishTimestamp] has
    no initialiser and stays [undefined]. *)
Definition new (now : Z) (service traceId spanId : string)
    (parentSpanId : option string) (sampled flags : option number)
    (startTimestamp : option StringOrDate) : result t :=
  initial <- Date.toISOString (Date.new now) ;;
  throwIf (negb (test TRACE_ID_REGEX traceId))
          (Error ("Invalid traceId: " ++ traceId)) ;;
  throwIf (negb (test SPAN_ID_REGEX spanId))
          (Error ("Invalid spanId: " ++ spanId)) ;;
  match parentSpanId with
  | Some p => throwIf (truthy p && negb (test SPAN_ID_REGEX p))
                      (Error ("Invalid parentSpanId: " ++ p))
  | None => Ok tt
  end ;;
  start <- match startTimestamp with
           | Some (IsDate d) => Date.toISOString d
           | Some (IsString s) => if truthy s then Ok s else Ok initial
           | None => Ok initial
           end ;;
  Ok {| service := service;
        traceId := traceId;
        spanId := spanId;
        parentSpanId := parentSpanId;
        sampled := sampled;
        flags := flags;
        startTimestamp := Some start;
        finishTimestamp := None |}.

(** [this.finishTimestamp = v] *)
Definition setFinishTimestamp (v : string) (this : t) : t :=
  {| service := service this;
     traceId := traceId this;
     spanId := spanId this;
     parentSpanId := parentSpanId this;
     sampled := sampled this;
     flags := flags this;
     startTimestamp := startTimestamp this;
     finishTimestamp := Some v |}.

(** [finish(finishTimestamp?)]: the method mutates [this]; the result is
    the object after the call.  When it throws, no field was assigned. *)
Definition finish (now : Z) (finishTimestamp : option StringOrDate)
    (this : t) : result t :=
  match finishTimestamp with
  | Some (IsDate d) =>
      iso <- Date.toISOString d ;; Ok (setFinishTimestamp iso this)
  | Some (IsString s) =>
      if negb (truthy s)
      then iso <- Date.toISOString (Date.new now) ;;
           Ok (setFinishTimestamp iso this)
      else Ok (setFinishTimestamp s this)
  | None =>
      iso <- Date.toISOString (Date.new now) ;;
      Ok (setFinishTimestamp iso this)
  end.

End EventTraceMetadata.

(* ================================================================== *)
(** ** [class EventStateMetadata] and [class EventMetadata] *)

Module EventStateMetadata.

Record t : Type := {
  status : EventStatusType.t;
  code : option number;
  description : option string
}.

Definition new (status : EventStatusType.t) (code : option number)
    (description : option string) : t :=
  {| status := status; code := code; description := description |}.

End EventStateMetadata.

Module EventMetadata.

Record t : Type := {
  id : string;
  type : EventType.t;
  action : EventAction.t;
  createdAt : string;
  state : EventStateMetadata.t;
  responseTo : option string
}.

(** The constructor.  The initialisers of [id], [type] and [action] are
    all overwritten by the body. *)
Definition new (id : string) (typeAction : EventTypeAction.t)
    (createdAt : StringOrDate) (state : EventStateMetadata.t)
    (responseTo : option string) : result t :=
  created <- match createdAt with
             | IsDate d => Date.toISOString d
             | IsString s => Ok s
             end ;;
  Ok {| id := id;
        type := EventTypeAction.getType typeAction;
        action := EventTypeAction.action typeAction;
        createdAt := created;
        state := state;
        responseTo := responseTo |}.

Definition create (id : string) (typeAction : EventTypeAction.t)
    (createdAt : string) (state : EventStateMetadata.t)
    (responseTo : option string) : result t :=
  new id typeAction (IsString createdAt) state responseTo.

Definition log (id : string) (action : LogEventAction.t)
    (createdAt : string) (state : EventStateMetadata.t)
    (responseTo : option string) : result t :=
  let typeAction := LogEventTypeAction (Action action) in
  new id typeAction (IsString createdAt) state responseTo.

Definition trace (id : string) (action : TraceEventAction.t)
    (createdAt : string) (state : EventStateMetadata.t)
    (responseTo : option string) : result t :=
  let typeAction := TraceEventTypeAction (Action action) in
  new id typeAction (IsString createdAt) state responseTo.

Definition audit (id : string) (action : AuditEventAction.t)
    (createdAt : string) (state : EventStateMetadata.t)
    (responseTo : option string) : result t :=
  let typeAction := AuditEventTypeAction (Action action) in
  new id typeAction (IsString createdAt) state responseTo.

Definition error (id : string) (action : ErrorEventAction.t)
    (createdAt : string) (state : EventStateMetadata.t)
    (responseTo : option string) : result t :=
  let typeAction := ErrorEventTypeAction (Action action) in
  new id typeAction (IsString createdAt) state responseTo.

End EventMetadata.

(* ================================================================== *)
(** ** Identifier generators *)

(** The random source: an unbounded supply of bytes. *)
Definition RandomSource : Type := nat -> byte.

(** [crypto.randomBytes(n)]: the next [n] bytes, and the source after them. *)
Definition randomBytes (n : nat) (src : RandomSource)
  : list byte * RandomSource :=
  (map src (seq 0 n), fun i => src (n + i)).

Definition hexDigit (n : N) : ascii :=
  nth (N.to_nat n) (list_ascii_of_string "0123456789abcdef") "0"%char.

(** [buf.toString('hex')]: two lowercase hex digits per byte, high nibble
    first. *)
Fixpoint toHex (buf : list byte) : string :=
  match buf with
  | [] => ""
  | b :: rest =>
      String (hexDigit (Byte.to_N b / 16))
        (String (hexDigit (Byte.to_N b mod 16)) (toHex rest))
  end.

Definition newTraceId (src : RandomSource) : string * RandomSource :=
  let (buf, src') := randomBytes 16 src in (toHex buf, src').

Definition newSpanId (src : RandomSource) : string * RandomSource :=
  let (buf, src') := randomBytes 8 src in (toHex buf, src').

(* ================================================================== *)
(** ** Call sequences and the state of a span *)

(** A caller that finishes one span several times in a row, each call with
    its own clock reading and argument; the first call that throws ends the
    sequence. *)
Fixpoint finishAll (calls : list (Z * option StringOrDate))
    (this : EventTraceMetadata.t) : result EventTraceMetadata.t :=
  match calls with
  | [] => Ok this
  | (now, a) :: rest =>
      this' <- EventTraceMetadata.finish now a this ;; finishAll rest this'
  end.

(** What the constructor lets through as [parentSpanId]: nothing, the empty
    string, or a string that passes the span-id check. *)
Definition parentAccepted (p : option string) : bool :=
  match p with
  | None => true
  | Some p => negb (truthy p) || test SPAN_ID_REGEX p
  end.

(** A timestamp field that holds a non-empty string. *)
Definition isTimestamp (f : option string) : Prop :=
  exists s, f = Some s /\ s <> "".

(** The state of a span that the class's own operations maintain. *)
Definition wellFormed (obj : EventTraceMetadata.t) : Prop :=
  test TRACE_ID_REGEX (EventTraceMetadata.traceId obj) = true
  /\ test SPAN_ID_REGEX (EventTraceMetadata.spanId obj) = true
  /\ parentAccepted (EventTraceMetadata.parentSpanId obj) = true
  /\ isTimestamp (EventTraceMetadata.startTimestamp obj)
  /\ (EventTraceMetadata.finishTimestamp obj = None
      \/ isTimestamp (EventTraceMetadata.finishTimestamp obj)).

(** Two spans that differ at most in [finishTimestamp]. *)
Definition sameSpan (a b : EventTraceMetadata.t) : Prop :=
  EventTraceMetadata.service a = EventTraceMetadata.service b
  /\ EventTraceMetadata.traceId a = EventTraceMetadata.traceId b
  /\ EventTraceMetadata.spanId a = EventTraceMetadata.spanId b
  /\ EventTraceMetadata.parentSpanId a = EventTraceMetadata.parentSpanId b
  /\ EventTraceMetadata.sampled a = EventTraceMetadata.sampled b
  /\ EventTraceMetadata.flags a = EventTraceMetadata.flags b
  /\ EventTraceMetadata.startTimestamp a = EventTraceMetadata.startTimestamp b.

(** An argument of [finish] or of a constructor that is an Invalid Date. *)
Definition isInvalidDate (a : option StringOrDate) : Prop :=
  exists d, a = Some (IsDate d) /\ Date.timeValue d = None.

(* ================================================================== *)
(** ** Sample inputs *)

Module Sample.

Definition traceId : string := "0123456789abcdef0123456789abcdef".
Definition spanId : string := "0123456789abcdef".

(** An Invalid Date, as [new Date(NaN)] yields. *)
Definition invalidDate : Date.t := {| Date.timeValue := None |}.

(** 2024-01-01T00:00:00.000Z *)
Definition newYear2024 : Z := 1704067200000.

Definition succeeded : EventStateMetadata.t :=
  EventStateMetadata.new EventStatusType.success None None.

(** A span built at the epoch and not yet finished. *)
Definition span : EventTraceMetadata.t :=
  {| EventTraceMetadata.service := "svc-a";
     EventTraceMetadata.traceId := traceId;
     EventTraceMetadata.spanId := spanId;
     EventTraceMetadata.parentSpanId := None;
     EventTraceMetadata.sampled := None;
     EventTraceMetadata.flags := None;
     EventTraceMetadata.startTimestamp := Some "1970-01-01T00:00:00.000Z";
     EventTraceMetadata.finishTimestamp := None |}.

End Sample.

(* ================================================================== *)
(** * Properties *)

(** ** The matcher on an anchored class pattern *)

Section AnchoredClass.

Variable atoms : list ClassAtom.

Lemma iter_class (n : nat) : forall (i : nat) (l : list ascii),
  iter n (run (CharClass atoms)) (i, l) =
  if (n <=? List.length l)%nat && forallb (classMatches atoms) (firstn n l)
  then [((n + i)%nat, skipn n l)] else [].
Proof.
  induction n as [|n IH]; intros i l.
  - reflexivity.
  - destruct l as [|c rest]; [reflexivity|].
    cbn [iter run fst snd].
    destruct (classMatches atoms c) eqn:Hc.
    + cbn [flat_map]. rewrite app_nil_r, IH.
      cbn [firstn forallb skipn List.length]. rewrite Hc.
      change (S n <=? S (List.length rest))%nat
        with (n <=? List.length rest)%nat.
      rewrite Nat.add_succ_r. reflexivity.
    + cbn [flat_map firstn forallb]. rewrite Hc, andb_false_r. reflexivity.
Qed.

Lemma skipn_nil_iff (A : Type) (n : nat) (l : list A) :
  skipn n l = [] <-> (List.length l <= n)%nat.
Proof.
  revert l; induction n as [|n IH]; intros [|a l]; cbn; try (split; auto with arith; fail).
  - split; [discriminate | lia].
  - rewrite IH. lia.
Qed.

Lemma matchesAt_anchoredClass (n i : nat) (input : list ascii) :
  matchesAt (anchoredClass atoms n) input i =
  Nat.eqb i 0 && (Nat.eqb (List.length input) n
                  && forallb (classMatches atoms) input).
Proof.
  unfold matchesAt, anchoredClass.
  cbn [run fst snd]. destruct i as [|i]; [|reflexivity].
  cbn [Nat.eqb skipn flat_map andb]. rewrite app_nil_r.
  cbn [run]. rewrite iter_class.
  destruct (Nat.leb_spec n (List.length input)) as [Hle|Hlt]; cbn [andb].
  - destruct (Nat.eqb_spec (List.length input) n) as [Heq|Hne].
    + subst n. rewrite firstn_all.
      destruct (forallb (classMatches atoms) input); [|reflexivity].
      cbn [flat_map run snd andb]. rewrite skipn_all. reflexivity.
    + destruct (forallb (classMatches atoms) (firstn n input)); [|reflexivity].
      cbn [flat_map run snd andb].
      destruct (skipn n input) eqn:Hs; [|reflexivity].
      apply skipn_nil_iff in Hs. lia.
  - destruct (Nat.eqb_spec (List.length input) n); [lia | reflexivity].
Qed.

Lemma existsb_later_start (c : bool) (k start : nat) :
  existsb (fun i => Nat.eqb i 0 && c) (seq (S start) k) = false.
Proof.
  revert start; induction k as [|k IH]; intros start; [reflexivity|].
  cbn [seq existsb Nat.eqb andb orb]. apply IH.
Qed.

Lemma existsb_pointwise (A : Type) (f g : A -> bool) (l : list A) :
  (forall a, f a = g a) -> existsb f l = existsb g l.
Proof.
  intros Hfg. induction l as [|a l IH]; cbn; [reflexivity|].
  rewrite Hfg, IH. reflexivity.
Qed.

Lemma length_list_ascii_of_string (s : string) :
  List.length (list_ascii_of_string s) = String.length s.
Proof. induction s as [|c s IH]; cbn; congruence. Qed.

(** [test] on [^[atoms]{n}$] accepts exactly the strings of [n] characters
    that all lie in the class. *)
Lemma test_anchoredClass (n : nat) (s : string) :
  test (anchoredClass atoms n) s =
  Nat.eqb (String.length s) n
  && forallb (classMatches atoms) (list_ascii_of_string s).
Proof.
  unfold test. cbv zeta.
  rewrite (existsb_pointwise _ _ _ (fun i => matchesAt_anchoredClass n i _)).
  cbn [seq existsb Nat.eqb andb]. rewrite existsb_later_start, orb_false_r.
  rewrite length_list_ascii_of_string. reflexivity.
Qed.

End AnchoredClass.

(** ** The identifier patterns *)

Lemma sourceHexClass_chars (c : ascii) :
  classMatches sourceHexClass c = inHexChars c.
Proof. destruct c as [[] [] [] [] [] [] [] []]; reflexivity. Qed.

Lemma hexClass_chars (c : ascii) :
  classMatches hexClass c = inHexChars c.
Proof. destruct c as [[] [] [] [] [] [] [] []]; reflexivity. Qed.

Lemma inHexChars_spec (c : ascii) :
  inHexChars c = true <-> isLowercaseHex c.
Proof.
  unfold inHexChars, isLowercaseHex. rewrite existsb_exists. split.
  - intros [x [Hin Heq]]. apply Ascii.eqb_eq in Heq. subst x. exact Hin.
  - intros Hin. exists c. split; [exact Hin | apply Ascii.eqb_refl].
Qed.

Lemma forallb_inHexChars (l : list ascii) :
  forallb inHexChars l = true <-> Forall isLowercaseHex l.
Proof.
  rewrite forallb_forall, Forall_forall.
  split; intros H x Hx; apply inHexChars_spec, H, Hx.
Qed.

Lemma forallb_pointwise (A : Type) (f g : A -> bool) (l : list A) :
  (forall a, f a = g a) -> forallb f l = forallb g l.
Proof.
  intros Hfg. induction l as [|a l IH]; cbn; [reflexivity|].
  rewrite Hfg, IH. reflexivity.
Qed.

Lemma test_sourceHex (n : nat) (s : string) :
  test (anchoredClass sourceHexClass n) s =
  Nat.eqb (String.length s) n && forallb inHexChars (list_ascii_of_string s).
Proof.
  rewrite test_anchoredClass.
  rewrite (forallb_pointwise _ _ _ sourceHexClass_chars). reflexivity.
Qed.

Lemma test_specHex (n : nat) (s : string) :
  test (hexPattern n) s =
  Nat.eqb (String.length s) n && forallb inHexChars (list_ascii_of_string s).
Proof.
  change (hexPattern n) with (anchoredClass hexClass n).
  rewrite test_anchoredClass.
  rewrite (forallb_pointwise _ _ _ hexClass_chars). reflexivity.
Qed.

Lemma test_sourceHex_iff (n : nat) (s : string) :
  test (anchoredClass sourceHexClass n) s = true <->
  lowercaseHexOfLength n s.
Proof.
  rewrite test_sourceHex, andb_true_iff, Nat.eqb_eq, forallb_inHexChars.
  reflexivity.
Qed.

Lemma TRACE_ID_REGEX_iff (s : string) :
  test TRACE_ID_REGEX s = true <-> lowercaseHexOfLength 32 s.
Proof. exact (test_sourceHex_iff 32 s). Qed.

Lemma SPAN_ID_REGEX_iff (s : string) :
  test SPAN_ID_REGEX s = true <-> lowercaseHexOfLength 16 s.
Proof. exact (test_sourceHex_iff 16 s). Qed.

Lemma SPAN_ID_REGEX_empty : test SPAN_ID_REGEX "" = false.
Proof. reflexivity. Qed.

(** The rejections listed among the specification's testable properties. *)
Example rejected_identifiers :
  test TRACE_ID_REGEX "not-hex" = false
  /\ test TRACE_ID_REGEX "" = false
  /\ test TRACE_ID_REGEX "0123456789abcdef0123456789abcde" = false
  /\ test TRACE_ID_REGEX "0123456789abcdef0123456789abcdef0" = false
  /\ test TRACE_ID_REGEX "0123456789ABCDEF0123456789ABCDEF" = false
  /\ test SPAN_ID_REGEX "0123456789abcde" = false
  /\ test SPAN_ID_REGEX "0123456789abcdef0" = false
  /\ test TRACE_ID_REGEX Sample.traceId = true
  /\ test SPAN_ID_REGEX Sample.spanId = true.
Proof. repeat split. Qed.


(** C3.  For every string [s], the trace-id check [TRACE_ID_REGEX.test(s)]
    accepts [s] if and only if [s] consists of exactly 32 lowercase hex
    characters, and the span-id check [SPAN_ID_REGEX.test(s)] accepts [s] if
    and only if [s] consists of exactly 16 lowercase hex characters; the two
    checks agree on every string with the patterns [^[0-9a-f]{32}$] and
    [^[0-9a-f]{16}$] of the specification. *)
Theorem id_checks_accept_exactly_lowercase_hex (s : string) :
  (test TRACE_ID_REGEX s = true <-> lowercaseHexOfLength 32 s) /\
  (test SPAN_ID_REGEX s = true <-> lowercaseHexOfLength 16 s) /\
  test TRACE_ID_REGEX s = test (hexPattern 32) s /\
  test SPAN_ID_REGEX s = test (hexPattern 16) s.
Proof.
  split; [apply TRACE_ID_REGEX_iff|].
  split; [apply SPAN_ID_REGEX_iff|].
  split.
  - change TRACE_ID_REGEX with (anchoredClass sourceHexClass 32).
    rewrite test_sourceHex, test_specHex. reflexivity.
  - change SPAN_ID_REGEX with (anchoredClass sourceHexClass 16).
    rewrite test_sourceHex, test_specHex. reflexivity.
Qed.

(** ** The identifier generators *)

Lemma hexDigit_high (b : byte) : inHexChars (hexDigit (Byte.to_N b / 16)) = true.
Proof. destruct b; reflexivity. Qed.

Lemma hexDigit_low (b : byte) : inHexChars (hexDigit (Byte.to_N b mod 16)) = true.
Proof. destruct b; reflexivity. Qed.

Lemma toHex_length (buf : list byte) :
  String.length (toHex buf) = (2 * List.length buf)%nat.
Proof. induction buf as [|b buf IH]; cbn [toHex String.length List.length]; lia. Qed.

Lemma toHex_chars (buf : list byte) :
  forallb inHexChars (list_ascii_of_string (toHex buf)) = true.
Proof.
  induction buf as [|b buf IH]; [reflexivity|].
  cbn [toHex list_ascii_of_string forallb].
  rewrite hexDigit_high, hexDigit_low, IH. reflexivity.
Qed.

Lemma toHex_accepted (n : nat) (buf : list byte) :
  List.length buf = n ->
  test (anchoredClass sourceHexClass (2 * n)) (toHex buf) = true.
Proof.
  intros Hlen. rewrite test_sourceHex, toHex_length, toHex_chars, Hlen.
  rewrite Nat.eqb_refl. reflexivity.
Qed.

Lemma randomBytes_length (n : nat) (src : RandomSource) :
  List.length (fst (randomBytes n src)) = n.
Proof. unfold randomBytes. cbn [fst]. rewrite length_map, length_seq. reflexivity. Qed.

(** C7.  Whatever bytes the random source delivers, the string returned by
    [newTraceId()] passes the trace-id check and the string returned by
    [newSpanId()] passes the span-id check; more generally the hex encoding
    of any 16 bytes is a valid trace id and the hex encoding of any 8 bytes
    is a valid span id. *)
Theorem generated_ids_are_valid :
  (forall src : RandomSource, test TRACE_ID_REGEX (fst (newTraceId src)) = true) /\
  (forall src : RandomSource, test SPAN_ID_REGEX (fst (newSpanId src)) = true) /\
  (forall buf : list byte,
      List.length buf = 16%nat -> test TRACE_ID_REGEX (toHex buf) = true) /\
  (forall buf : list byte,
      List.length buf = 8%nat -> test SPAN_ID_REGEX (toHex buf) = true).
Proof.
  repeat split.
  - intros src. unfold newTraceId.
    destruct (randomBytes 16 src) as [buf src'] eqn:Hr. cbn [fst].
    apply (toHex_accepted (n := 16)).
    rewrite <- (randomBytes_length 16 src), Hr. reflexivity.
  - intros src. unfold newSpanId.
    destruct (randomBytes 8 src) as [buf src'] eqn:Hr. cbn [fst].
    apply (toHex_accepted (n := 8)).
    rewrite <- (randomBytes_length 8 src), Hr. reflexivity.
  - intros buf Hlen. apply (toHex_accepted (n := 16)), Hlen.
  - intros buf Hlen. apply (toHex_accepted (n := 8)), Hlen.
Qed.

(** ** The type/action hierarchy *)

Example isoOfTime_2024 :
  Date.isoOfTime Sample.newYear2024 = "2024-01-01T00:00:00.000Z".
Proof. reflexivity. Qed.

Lemma action_is_legal_or_undefined (ta : EventTypeAction.t) :
  In (EventAction.value (EventTypeAction.action ta))
     (legalActions (EventTypeAction.getType ta))
  \/ EventAction.value (EventTypeAction.action ta) = "undefined".
Proof.
  destruct ta as [[a|[]]|[a|[]]|[a|[]]|[a|[]]];
    try (right; reflexivity); left; destruct a; cbn; tauto.
Qed.

(** C1.  Every instance of the four concrete classes carries an action whose
    runtime value lies in the legal action set of the class's own type (log:
    info, debug, verbose, perf; audit: default; error: internal, external;
    trace: span) or is the universal "undefined"; and for every type [c] and
    every action [a] of [c]'s legal set there is an instance, built by the
    class of [c] from [a], whose [getType()] is [c] and whose action is [a]. *)
Theorem type_action_compatibility :
  (forall ta : EventTypeAction.t,
      In (EventAction.value (EventTypeAction.action ta))
         (legalActions (EventTypeAction.getType ta))
      \/ EventAction.value (EventTypeAction.action ta) = "undefined") /\
  (forall (c : EventType.t) (a : string),
      In a (legalActions c) ->
      exists ta : EventTypeAction.t,
        EventTypeAction.getType ta = c
        /\ EventAction.value (EventTypeAction.action ta) = a).
Proof.
  split; [exact action_is_legal_or_undefined|].
  intros c a Hin. destruct c; cbn in Hin.
  - contradiction.
  - destruct Hin as [<-|[<-|[<-|[<-|[]]]]].
    + exists (LogEventTypeAction (Action LogEventAction.info)). split; reflexivity.
    + exists (LogEventTypeAction (Action LogEventAction.debug)). split; reflexivity.
    + exists (LogEventTypeAction (Action LogEventAction.verbose)). split; reflexivity.
    + exists (LogEventTypeAction (Action LogEventAction.perf)). split; reflexivity.
  - destruct Hin as [<-|[]].
    exists (AuditEventTypeAction (Action AuditEventAction.default)). split; reflexivity.
  - destruct Hin as [<-|[<-|[]]].
    + exists (ErrorEventTypeAction (Action ErrorEventAction.internal)). split; reflexivity.
    + exists (ErrorEventTypeAction (Action ErrorEventAction.external)). split; reflexivity.
  - destruct Hin as [<-|[]].
    exists (TraceEventTypeAction (Action TraceEventAction.span)). split; reflexivity.
Qed.

Lemma type_action_compatibility_witness :
  In "debug" (legalActions EventType.log) /\
  exists ta : EventTypeAction.t,
    EventTypeAction.getType ta = EventType.log
    /\ EventAction.value (EventTypeAction.action ta) = "debug".
Proof.
  split.
  - cbn. tauto.
  - apply (proj2 type_action_compatibility EventType.log "debug"). cbn. tauto.
Defined.

(** ** The [EventMetadata] factories *)

Example log_debug :
  EventMetadata.log "e-1" LogEventAction.debug "2024-01-15T10:30:00.000Z"
    Sample.succeeded None
  = Ok {| EventMetadata.id := "e-1";
          EventMetadata.type := EventType.log;
          EventMetadata.action := EventAction.Log LogEventAction.debug;
          EventMetadata.createdAt := "2024-01-15T10:30:00.000Z";
          EventMetadata.state := Sample.succeeded;
          EventMetadata.responseTo := None |}.
Proof. reflexivity. Qed.

(** C6.  [EventMetadata.log(id, "debug", createdAt, state, responseTo)]
    returns an object whose [type] is "log" and whose [action] is "debug";
    and each factory ([log], [audit], [error], [trace], [create]) returns an
    object whose [type] and [action] are exactly [getType()] and [action] of
    the [EventTypeAction] instance it builds from its arguments. *)
Theorem factories_carry_type_and_action
    (id createdAt : string) (state : EventStateMetadata.t)
    (responseTo : option string) :
  (exists m, EventMetadata.log id LogEventAction.debug createdAt state responseTo = Ok m
             /\ EventType.value (EventMetadata.type m) = "log"
             /\ EventAction.value (EventMetadata.action m) = "debug") /\
  (forall a, exists m,
      EventMetadata.log id a createdAt state responseTo = Ok m
      /\ EventMetadata.type m = EventTypeAction.getType (LogEventTypeAction (Action a))
      /\ EventMetadata.action m = EventTypeAction.action (LogEventTypeAction (Action a))) /\
  (forall a, exists m,
      EventMetadata.audit id a createdAt state responseTo = Ok m
      /\ EventMetadata.type m = EventTypeAction.getType (AuditEventTypeAction (Action a))
      /\ EventMetadata.action m = EventTypeAction.action (AuditEventTypeAction (Action a))) /\
  (forall a, exists m,
      EventMetadata.error id a createdAt state responseTo = Ok m
      /\ EventMetadata.type m = EventTypeAction.getType (ErrorEventTypeAction (Action a))
      /\ EventMetadata.action m = EventTypeAction.action (ErrorEventTypeAction (Action a))) /\
  (forall a, exists m,
      EventMetadata.trace id a createdAt state responseTo = Ok m
      /\ EventMetadata.type m = EventTypeAction.getType (TraceEventTypeAction (Action a))
      /\ EventMetadata.action m = EventTypeAction.action (TraceEventTypeAction (Action a))) /\
  (forall typeAction, exists m,
      EventMetadata.create id typeAction createdAt state responseTo = Ok m
      /\ EventMetadata.type m = EventTypeAction.getType typeAction
      /\ EventMetadata.action m = EventTypeAction.action typeAction).
Proof.
  repeat split; try intros x; eexists; repeat split.
Qed.

(** ** [EventTraceMetadata]: the constructor *)

Lemma truthy_true_iff (s : string) : truthy s = true <-> s <> "".
Proof. destruct s; cbn; split; congruence. Qed.

Lemma truthy_false_iff (s : string) : truthy s = false <-> s = "".
Proof. destruct s; cbn; split; congruence. Qed.

Lemma isoOfTime_nonempty (tv : Z) : Date.isoOfTime tv <> "".
Proof.
  unfold Date.isoOfTime. destruct (Date.civil (tv / 86400000)) as [[y m] d].
  destruct (Date.yearString y); cbn; discriminate.
Qed.

(** What the constructor stores in [startTimestamp], when the argument can
    be rendered. *)
Lemma new_valid (now : Z) (service traceId spanId : string)
    (parentSpanId : option string) (sampled flags : option number)
    (startTimestamp : option StringOrDate) (start : string) :
  test TRACE_ID_REGEX traceId = true ->
  test SPAN_ID_REGEX spanId = true ->
  match parentSpanId with
  | Some p => truthy p && negb (test SPAN_ID_REGEX p) = false
  | None => True
  end ->
  match startTimestamp with
  | Some (IsDate d) => Date.toISOString d = Ok start
  | Some (IsString s) => start = if truthy s then s else Date.isoOfTime now
  | None => start = Date.isoOfTime now
  end ->
  EventTraceMetadata.new now service traceId spanId parentSpanId sampled flags
    startTimestamp
  = Ok {| EventTraceMetadata.service := service;
          EventTraceMetadata.traceId := traceId;
          EventTraceMetadata.spanId := spanId;
          EventTraceMetadata.parentSpanId := parentSpanId;
          EventTraceMetadata.sampled := sampled;
          EventTraceMetadata.flags := flags;
          EventTraceMetadata.startTimestamp := Some start;
          EventTraceMetadata.finishTimestamp := None |}.
Proof.
  intros Ht Hs Hp Hst. unfold EventTraceMetadata.new.
  cbn [Date.toISOString Date.new Date.timeValue bind].
  rewrite Ht, Hs. cbn [negb throwIf bind].
  destruct parentSpanId as [p|]; [rewrite Hp|]; cbn [throwIf bind];
    (destruct startTimestamp as [[s|d]|];
     [ subst start; destruct (truthy s); reflexivity
     | rewrite Hst; reflexivity
     | subst start; reflexivity ]).
Qed.

(** Conversely, an object only comes out of a call whose identifiers all
    passed, and it stores the arguments as they were given. *)
Lemma new_Ok_inv (now : Z) (service traceId spanId : string)
    (parentSpanId : option string) (sampled flags : option number)
    (startTimestamp : option StringOrDate) (obj : EventTraceMetadata.t) :
  EventTraceMetadata.new now service traceId spanId parentSpanId sampled flags
    startTimestamp = Ok obj ->
  test TRACE_ID_REGEX traceId = true
  /\ test SPAN_ID_REGEX spanId = true
  /\ match parentSpanId with
     | Some p => truthy p && negb (test SPAN_ID_REGEX p) = false
     | None => True
     end
  /\ exists start : string,
       match startTimestamp with
       | Some (IsDate d) => Date.toISOString d = Ok start
       | Some (IsString s) => start = if truthy s then s else Date.isoOfTime now
       | None => start = Date.isoOfTime now
       end
       /\ obj = {| EventTraceMetadata.service := service;
                   EventTraceMetadata.traceId := traceId;
                   EventTraceMetadata.spanId := spanId;
                   EventTraceMetadata.parentSpanId := parentSpanId;
                   EventTraceMetadata.sampled := sampled;
                   EventTraceMetadata.flags := flags;
                   EventTraceMetadata.startTimestamp := Some start;
                   EventTraceMetadata.finishTimestamp := None |}.
Proof.
  unfold EventTraceMetadata.new.
  cbn [Date.toISOString Date.new Date.timeValue bind].
  destruct (test TRACE_ID_REGEX traceId); cbn [negb throwIf bind]; [|discriminate].
  destruct (test SPAN_ID_REGEX spanId); cbn [negb throwIf bind]; [|discriminate].
  intros H. split; [reflexivity|]. split; [reflexivity|].
  assert (Hp : match parentSpanId with
               | Some p => truthy p && negb (test SPAN_ID_REGEX p) = false
               | None => True
               end).
  { destruct parentSpanId as [p|]; [|exact I].
    destruct (truthy p && negb (test SPAN_ID_REGEX p)); [discriminate H|reflexivity]. }
  split; [exact Hp|].
  destruct parentSpanId as [p|]; [rewrite Hp in H|]; cbn [throwIf bind] in H;
    (destruct startTimestamp as [[s|d]|];
     [ destruct (truthy s); injection H as <-; eexists; split; reflexivity
     | destruct (Date.toISOString d) as [iso|e]; cbn [bind] in H;
       [injection H as <-; eexists; split; reflexivity | discriminate H]
     | injection H as <-; eexists; split; reflexivity ]).
Qed.

(** C2, as amended.  The constructor throws if and only if [traceId] fails
    the trace-id check, or [spanId] fails the span-id check, or
    [parentSpanId] is a non-empty string that fails the span-id check, or
    [startTimestamp] is an Invalid Date (whose [toISOString] raises); a call
    that throws yields no object, and an object that is returned stores
    [traceId] and [spanId] exactly as given. *)
Theorem constructor_throws_iff (now : Z) (service traceId spanId : string)
    (parentSpanId : option string) (sampled flags : option number)
    (startTimestamp : option StringOrDate) :
  let r := EventTraceMetadata.new now service traceId spanId parentSpanId
             sampled flags startTimestamp in
  ((exists e, r = Throw e) <->
     test TRACE_ID_REGEX traceId = false
     \/ test SPAN_ID_REGEX spanId = false
     \/ (exists p, parentSpanId = Some p /\ p <> ""
                   /\ test SPAN_ID_REGEX p = false)
     \/ (exists d, startTimestamp = Some (IsDate d) /\ Date.timeValue d = None))
  /\ ((exists e, r = Throw e) -> forall obj, r <> Ok obj)
  /\ (forall obj, r = Ok obj ->
        EventTraceMetadata.traceId obj = traceId
        /\ EventTraceMetadata.spanId obj = spanId).
Proof.
  intros r. split; [split|split].
  - (* a throw has one of the four causes *)
    intros [e He].
    destruct (test TRACE_ID_REGEX traceId) eqn:Ht; [|left; reflexivity].
    destruct (test SPAN_ID_REGEX spanId) eqn:Hs; [|right; left; reflexivity].
    right; right.
    assert (Hp : (exists p, parentSpanId = Some p /\ p <> ""
                            /\ test SPAN_ID_REGEX p = false)
                 \/ match parentSpanId with
                    | Some p => truthy p && negb (test SPAN_ID_REGEX p) = false
                    | None => True
                    end).
    { destruct parentSpanId as [p|]; [|right; exact I].
      destruct (truthy p && negb (test SPAN_ID_REGEX p)) eqn:Hb; [left|right; reflexivity].
      apply andb_true_iff in Hb. destruct Hb as [Hp1 Hp2].
      exists p. split; [reflexivity|]. split; [apply truthy_true_iff, Hp1|].
      apply negb_true_iff, Hp2. }
    destruct Hp as [Hp|Hp]; [left; exact Hp|right].
    destruct startTimestamp as [[s|[[tv|]]]|].
    + exfalso. subst r.
      rewrite (@new_valid now service traceId spanId parentSpanId sampled flags
                 (Some (IsString s)) _ Ht Hs Hp eq_refl) in He.
      discriminate He.
    + exfalso. subst r.
      rewrite (@new_valid now service traceId spanId parentSpanId sampled flags
                 (Some (IsDate {| Date.timeValue := Some tv |})) _
                 Ht Hs Hp eq_refl) in He.
      discriminate He.
    + eexists. split; reflexivity.
    + exfalso. subst r.
      rewrite (@new_valid now service traceId spanId parentSpanId sampled flags
                 None _ Ht Hs Hp eq_refl) in He.
      discriminate He.
  - (* each cause makes the call throw *)
    intros Hcause. destruct r as [obj|e] eqn:Hr; [exfalso|exists e; reflexivity].
    apply new_Ok_inv in Hr.
    destruct Hr as [Ht [Hs [Hp [start [Hst _]]]]].
    destruct Hcause as [H|[H|[[p [-> [Hne H]]]|[d [-> H]]]]].
    + congruence.
    + congruence.
    + apply truthy_true_iff in Hne. rewrite Hne, H in Hp. discriminate Hp.
    + unfold Date.toISOString in Hst. rewrite H in Hst. discriminate Hst.
  - intros [e He] obj Hobj. rewrite He in Hobj. discriminate Hobj.
  - intros obj Hobj. apply new_Ok_inv in Hobj.
    destruct Hobj as [_ [_ [_ [start [_ ->]]]]]. split; reflexivity.
Qed.

(** The claim C2 as stated fails at two inputs: with [parentSpanId = ""],
    which is present and does not pass the span-id check, the constructor
    returns an object; and with an Invalid Date as [startTimestamp] it
    throws although all three identifier checks pass. *)
Lemma constructor_throws_iff_counterexample :
  (test SPAN_ID_REGEX "" = false
   /\ EventTraceMetadata.new 0 "svc-a" Sample.traceId Sample.spanId (Some "")
        None None None
      = Ok {| EventTraceMetadata.service := "svc-a";
              EventTraceMetadata.traceId := Sample.traceId;
              EventTraceMetadata.spanId := Sample.spanId;
              EventTraceMetadata.parentSpanId := Some "";
              EventTraceMetadata.sampled := None;
              EventTraceMetadata.flags := None;
              EventTraceMetadata.startTimestamp := Some "1970-01-01T00:00:00.000Z";
              EventTraceMetadata.finishTimestamp := None |})
  /\ (test TRACE_ID_REGEX Sample.traceId = true
      /\ test SPAN_ID_REGEX Sample.spanId = true
      /\ EventTraceMetadata.new 0 "svc-a" Sample.traceId Sample.spanId None
           None None (Some (IsDate Sample.invalidDate))
         = Throw (RangeError "Invalid time value")).
Proof. repeat split. Qed.

Lemma constructor_throws_iff_witness :
  (exists e, EventTraceMetadata.new 0 "svc-a" "zz000000000000000000000000000000"
               Sample.spanId None None None None = Throw e)
  /\ forall obj,
       EventTraceMetadata.new 0 "svc-a" Sample.traceId Sample.spanId None
         None None None = Ok obj ->
       EventTraceMetadata.traceId obj = Sample.traceId
       /\ EventTraceMetadata.spanId obj = Sample.spanId.
Proof.
  split.
  - apply (proj1 (constructor_throws_iff 0 "svc-a"
                    "zz000000000000000000000000000000" Sample.spanId
                    None None None None)).
    left. reflexivity.
  - apply (proj2 (proj2 (constructor_throws_iff 0 "svc-a" Sample.traceId
                           Sample.spanId None None None None))).
Defined.

(** C8, as amended.  A successfully constructed [EventTraceMetadata] stores
    the [service] argument unchanged, so the stored [service] is non-empty
    exactly when the argument is.  The constructor does not check [service]
    at all: the same call with any other [service], the empty string
    included, has the same outcome (the same exception, or an object that
    differs in [service] only), so wherever a construction succeeds it also
    succeeds with an empty [service] and stores [""]. *)
Theorem service_is_stored_unchecked (now : Z) (service traceId spanId : string)
    (parentSpanId : option string) (sampled flags : option number)
    (startTimestamp : option StringOrDate) :
  (forall obj,
      EventTraceMetadata.new now service traceId spanId parentSpanId sampled
        flags startTimestamp = Ok obj ->
      EventTraceMetadata.service obj = service
      /\ (EventTraceMetadata.service obj <> "" <-> service <> ""))
  /\ (forall service',
        EventTraceMetadata.new now service' traceId spanId parentSpanId sampled
          flags startTimestamp
        = (obj <- EventTraceMetadata.new now service traceId spanId
                    parentSpanId sampled flags startTimestamp ;;
           Ok {| EventTraceMetadata.service := service';
                 EventTraceMetadata.traceId := EventTraceMetadata.traceId obj;
                 EventTraceMetadata.spanId := EventTraceMetadata.spanId obj;
                 EventTraceMetadata.parentSpanId :=
                   EventTraceMetadata.parentSpanId obj;
                 EventTraceMetadata.sampled := EventTraceMetadata.sampled obj;
                 EventTraceMetadata.flags := EventTraceMetadata.flags obj;
                 EventTraceMetadata.startTimestamp :=
                   EventTraceMetadata.startTimestamp obj;
                 EventTraceMetadata.finishTimestamp :=
                   EventTraceMetadata.finishTimestamp obj |}))
  /\ (forall obj,
        EventTraceMetadata.new now service traceId spanId parentSpanId sampled
          flags startTimestamp = Ok obj ->
        exists obj',
          EventTraceMetadata.new now "" traceId spanId parentSpanId sampled
            flags startTimestamp = Ok obj'
          /\ EventTraceMetadata.service obj' = "")
  /\ (test TRACE_ID_REGEX traceId = true ->
      test SPAN_ID_REGEX spanId = true ->
      exists obj',
        EventTraceMetadata.new now "" traceId spanId None sampled flags None
        = Ok obj'
        /\ EventTraceMetadata.service obj' = "").
Proof.
  assert (Hany : forall service',
            EventTraceMetadata.new now service' traceId spanId parentSpanId
              sampled flags startTimestamp
            = (obj <- EventTraceMetadata.new now service traceId spanId
                        parentSpanId sampled flags startTimestamp ;;
               Ok {| EventTraceMetadata.service := service';
                     EventTraceMetadata.traceId := EventTraceMetadata.traceId obj;
                     EventTraceMetadata.spanId := EventTraceMetadata.spanId obj;
                     EventTraceMetadata.parentSpanId :=
                       EventTraceMetadata.parentSpanId obj;
                     EventTraceMetadata.sampled := EventTraceMetadata.sampled obj;
                     EventTraceMetadata.flags := EventTraceMetadata.flags obj;
                     EventTraceMetadata.startTimestamp :=
                       EventTraceMetadata.startTimestamp obj;
                     EventTraceMetadata.finishTimestamp :=
                       EventTraceMetadata.finishTimestamp obj |})).
  { intros service'. unfold EventTraceMetadata.new.
    cbn [Date.toISOString Date.new Date.timeValue bind].
    destruct (test TRACE_ID_REGEX traceId); cbn [negb throwIf bind]; [|reflexivity].
    destruct (test SPAN_ID_REGEX spanId); cbn [negb throwIf bind]; [|reflexivity].
    destruct parentSpanId as [p|];
      [destruct (truthy p && negb (test SPAN_ID_REGEX p))|];
      cbn [throwIf bind]; try reflexivity;
      (destruct startTimestamp as [[s|d]|];
       [ destruct (truthy s); reflexivity
       | destruct (Date.toISOString d); reflexivity
       | reflexivity ]). }
  split; [|split; [exact Hany|split]].
  - intros obj Hobj. apply new_Ok_inv in Hobj.
    destruct Hobj as [_ [_ [_ [start [_ ->]]]]]. cbn. split; [reflexivity|tauto].
  - intros obj Hobj. rewrite (Hany ""), Hobj. cbn [bind].
    eexists. split; reflexivity.
  - intros Ht Hs. eexists.
    split; [apply (@new_valid now "" traceId spanId None sampled flags None
                     (Date.isoOfTime now) Ht Hs I eq_refl) | reflexivity].
Qed.

(** The claim C8 as stated fails: with valid identifiers and an empty
    [service] the constructor returns an object whose [service] is empty. *)
Lemma service_nonempty_counterexample :
  exists obj,
    EventTraceMetadata.new 0 "" Sample.traceId Sample.spanId None None None None
    = Ok obj
    /\ EventTraceMetadata.service obj = "".
Proof. eexists. split; reflexivity. Qed.

Lemma service_is_stored_unchecked_witness :
  (EventTraceMetadata.service Sample.span = "svc-a"
   /\ (EventTraceMetadata.service Sample.span <> "" <-> "svc-a" <> ""))
  /\ exists obj',
       EventTraceMetadata.new 0 "" Sample.traceId Sample.spanId None None None
         None = Ok obj'
       /\ EventTraceMetadata.service obj' = "".
Proof.
  split.
  - apply (proj1 (service_is_stored_unchecked 0 "svc-a" Sample.traceId
                    Sample.spanId None None None None) Sample.span).
    reflexivity.
  - apply (proj2 (proj2 (proj2 (service_is_stored_unchecked 0 "svc-a"
                    Sample.traceId Sample.spanId None None None None))));
      reflexivity.
Defined.

(** A timestamp argument that [toISOString] can render: anything but an
    Invalid Date. *)
Lemma renderable_start (now : Z) (a : option StringOrDate) :
  (forall d, a = Some (IsDate d) -> Date.timeValue d <> None) ->
  exists start,
    match a with
    | Some (IsDate d) => Date.toISOString d = Ok start
    | Some (IsString s) => start = if truthy s then s else Date.isoOfTime now
    | None => start = Date.isoOfTime now
    end.
Proof.
  intros Hd. destruct a as [[s|[[tv|]]]|].
  - eexists; reflexivity.
  - eexists; reflexivity.
  - exfalso. apply (Hd _ eq_refl). reflexivity.
  - eexists; reflexivity.
Qed.

(** C9.  With a valid [traceId] and [spanId] and with [parentSpanId = ""],
    the constructor does not throw: it returns an object whose
    [parentSpanId] is the empty string, although the empty string does not
    pass the span-id check.  This holds whatever [service], [sampled] and
    [flags] are, and for every [startTimestamp] that is omitted, a string, or
    a [Date] with a time value (on an Invalid Date the conversion of
    [startTimestamp] raises, whatever [parentSpanId] is). *)
Theorem empty_parentSpanId_accepted (now : Z) (service traceId spanId : string)
    (sampled flags : option number) (startTimestamp : option StringOrDate) :
  test TRACE_ID_REGEX traceId = true ->
  test SPAN_ID_REGEX spanId = true ->
  (forall d, startTimestamp = Some (IsDate d) -> Date.timeValue d <> None) ->
  test SPAN_ID_REGEX "" = false
  /\ exists obj,
       EventTraceMetadata.new now service traceId spanId (Some "") sampled flags
         startTimestamp = Ok obj
       /\ EventTraceMetadata.parentSpanId obj = Some "".
Proof.
  intros Ht Hs Hd. split; [reflexivity|].
  destruct (@renderable_start now startTimestamp Hd) as [start Hst].
  eexists. split.
  - apply (@new_valid now service traceId spanId (Some "") sampled flags
             startTimestamp start Ht Hs eq_refl Hst).
  - reflexivity.
Qed.

Lemma empty_parentSpanId_accepted_witness :
  test SPAN_ID_REGEX "" = false
  /\ exists obj,
       EventTraceMetadata.new 0 "svc-a" Sample.traceId Sample.spanId (Some "")
         None None None = Ok obj
       /\ EventTraceMetadata.parentSpanId obj = Some "".
Proof.
  apply (@empty_parentSpanId_accepted 0 "svc-a" Sample.traceId Sample.spanId
           None None None).
  - reflexivity.
  - reflexivity.
  - intros d Hd. discriminate Hd.
Defined.

(** C5, as amended.  For every successful construction: without a
    [startTimestamp] argument the stored [startTimestamp] is the ISO 8601
    form of the clock reading at construction; with a non-empty string it is
    that string exactly; with the empty string it is, as without an
    argument, the ISO 8601 form of the clock reading (and so not [""]); with
    a [Date] it is the ISO 8601 form of that date. *)
Theorem startTimestamp_of_new (now : Z) (service traceId spanId : string)
    (parentSpanId : option string) (sampled flags : option number)
    (startTimestamp : option StringOrDate) (obj : EventTraceMetadata.t) :
  EventTraceMetadata.new now service traceId spanId parentSpanId sampled flags
    startTimestamp = Ok obj ->
  match startTimestamp with
  | None =>
      EventTraceMetadata.startTimestamp obj = Some (Date.isoOfTime now)
      /\ Date.toISOString (Date.new now) = Ok (Date.isoOfTime now)
  | Some (IsString s) =>
      (s <> "" -> EventTraceMetadata.startTimestamp obj = Some s)
      /\ (s = "" ->
          EventTraceMetadata.startTimestamp obj = Some (Date.isoOfTime now)
          /\ EventTraceMetadata.startTimestamp obj <> Some ""
          /\ EventTraceMetadata.new now service traceId spanId parentSpanId
               sampled flags None = Ok obj)
  | Some (IsDate d) =>
      exists iso, Date.toISOString d = Ok iso
                  /\ EventTraceMetadata.startTimestamp obj = Some iso
  end.
Proof.
  intros Hobj. pose proof Hobj as Hinv. apply new_Ok_inv in Hinv.
  destruct Hinv as [_ [_ [_ [start [Hst ->]]]]]. cbn.
  destruct startTimestamp as [[s|d]|].
  - split.
    + intros Hne. apply truthy_true_iff in Hne. rewrite Hne in Hst.
      subst start. reflexivity.
    + intros ->. cbn in Hst. subst start.
      split; [reflexivity|]. split; [|exact Hobj].
      intros H. injection H as H. exact (isoOfTime_nonempty now H).
  - exists start. split; [exact Hst | reflexivity].
  - subst start. split; reflexivity.
Qed.

(** The claim C5 as stated fails: the explicit string [""] is not stored;
    the object keeps the clock's timestamp. *)
Lemma startTimestamp_of_new_counterexample :
  exists obj,
    EventTraceMetadata.new Sample.newYear2024 "svc-a" Sample.traceId
      Sample.spanId None None None (Some (IsString "")) = Ok obj
    /\ EventTraceMetadata.startTimestamp obj = Some "2024-01-01T00:00:00.000Z"
    /\ EventTraceMetadata.startTimestamp obj <> Some "".
Proof. eexists. repeat split. discriminate. Qed.

Lemma startTimestamp_of_new_witness :
  (exists obj,
     EventTraceMetadata.new 0 "svc-a" Sample.traceId Sample.spanId None None None
       (Some (IsString "2024-01-01T00:00:00.000Z")) = Ok obj
     /\ EventTraceMetadata.startTimestamp obj = Some "2024-01-01T00:00:00.000Z")
  /\ (exists obj,
        EventTraceMetadata.new Sample.newYear2024 "svc-a" Sample.traceId
          Sample.spanId None None None (Some (IsString "")) = Ok obj
        /\ EventTraceMetadata.startTimestamp obj
           = Some (Date.isoOfTime Sample.newYear2024)).
Proof.
  split.
  - eexists. split; [reflexivity|].
    apply (proj1 (@startTimestamp_of_new 0 "svc-a" Sample.traceId Sample.spanId
                    None None None
                    (Some (IsString "2024-01-01T00:00:00.000Z")) _ eq_refl)).
    discriminate.
  - eexists. split; [reflexivity|].
    apply (proj2 (@startTimestamp_of_new Sample.newYear2024 "svc-a"
                    Sample.traceId Sample.spanId None None None
                    (Some (IsString "")) _ eq_refl)).
    reflexivity.
Defined.

(** ** [EventTraceMetadata]: [finish] *)

Lemma finish_only_sets_finishTimestamp (v w : string) (this : EventTraceMetadata.t) :
  EventTraceMetadata.setFinishTimestamp v
    (EventTraceMetadata.setFinishTimestamp w this)
  = EventTraceMetadata.setFinishTimestamp v this.
Proof. reflexivity. Qed.

Lemma finish_Ok_inv (now : Z) (a : option StringOrDate)
    (this this' : EventTraceMetadata.t) :
  EventTraceMetadata.finish now a this = Ok this' ->
  exists v, this' = EventTraceMetadata.setFinishTimestamp v this.
Proof.
  unfold EventTraceMetadata.finish.
  cbn [Date.toISOString Date.new Date.timeValue bind].
  destruct a as [[s|[[tv|]]]|]; cbn [bind].
  - destruct (negb (truthy s)); intros H; injection H as <-; eexists; reflexivity.
  - intros H; injection H as <-; eexists; reflexivity.
  - discriminate.
  - intros H; injection H as <-; eexists; reflexivity.
Qed.

Lemma finish_ignores_earlier_finish (now : Z) (a : option StringOrDate)
    (w : string) (this : EventTraceMetadata.t) :
  EventTraceMetadata.finish now a (EventTraceMetadata.setFinishTimestamp w this)
  = EventTraceMetadata.finish now a this.
Proof.
  unfold EventTraceMetadata.finish.
  destruct a as [[s|d]|]; [destruct (negb (truthy s))| |]; reflexivity.
Qed.

(** C4, as amended.  [finish()] without an argument sets [finishTimestamp]
    to the ISO 8601 form of the clock reading; with a non-empty string it
    sets it to exactly that string; with the empty string it does what it
    does without an argument, storing the clock's timestamp and not [""];
    with a [Date] that has an ISO 8601 form it sets it to that form, and
    with an Invalid Date it throws the [RangeError] and sets nothing; no
    other field changes.  A second call overwrites the first: after two
    calls the object is what the second call alone would have produced, so
    only the second value remains, and nothing stops a call on an instance
    that is already finished. *)
Theorem finish_sets_finishTimestamp (now : Z) (this : EventTraceMetadata.t) :
  EventTraceMetadata.finish now None this
    = Ok (EventTraceMetadata.setFinishTimestamp (Date.isoOfTime now) this)
  /\ (forall s, s <> "" ->
        EventTraceMetadata.finish now (Some (IsString s)) this
        = Ok (EventTraceMetadata.setFinishTimestamp s this))
  /\ (forall d iso, Date.toISOString d = Ok iso ->
        EventTraceMetadata.finish now (Some (IsDate d)) this
        = Ok (EventTraceMetadata.setFinishTimestamp iso this))
  /\ (forall earlier a1 this1 a2,
        EventTraceMetadata.finish earlier a1 this = Ok this1 ->
        EventTraceMetadata.finish now a2 this1
        = EventTraceMetadata.finish now a2 this)
  /\ (forall v, EventTraceMetadata.finishTimestamp
                  (EventTraceMetadata.setFinishTimestamp v this) = Some v)
  /\ (EventTraceMetadata.finish now (Some (IsString "")) this
      = EventTraceMetadata.finish now None this
      /\ EventTraceMetadata.finish now (Some (IsString "")) this
         = Ok (EventTraceMetadata.setFinishTimestamp (Date.isoOfTime now) this)
      /\ Date.isoOfTime now <> "")
  /\ (forall d, Date.timeValue d = None ->
        EventTraceMetadata.finish now (Some (IsDate d)) this
        = Throw (RangeError "Invalid time value"))
  /\ (forall d, (exists iso, Date.toISOString d = Ok iso)
                \/ Date.timeValue d = None).
Proof.
  split; [reflexivity|]. split; [|split; [|split; [|split; [|split; [|split]]]]].
  - intros s Hne. unfold EventTraceMetadata.finish.
    apply truthy_true_iff in Hne. rewrite Hne. reflexivity.
  - intros d iso Hiso. unfold EventTraceMetadata.finish. rewrite Hiso. reflexivity.
  - intros earlier a1 this1 a2 H1. apply finish_Ok_inv in H1.
    destruct H1 as [w ->]. apply finish_ignores_earlier_finish.
  - reflexivity.
  - split; [reflexivity|]. split; [reflexivity|]. apply isoOfTime_nonempty.
  - intros d Hd. unfold EventTraceMetadata.finish, Date.toISOString.
    rewrite Hd. reflexivity.
  - intros d. unfold Date.toISOString.
    destruct (Date.timeValue d) as [tv|]; [left; eexists; reflexivity|right; reflexivity].
Qed.

(** The claim C4 as stated fails: [finish("")] does not set
    [finishTimestamp] to the explicit string [""] but to the clock's
    timestamp; and [finish] called with an Invalid Date, which has no
    ISO 8601 form, throws and sets nothing. *)
Lemma finish_sets_finishTimestamp_counterexample :
  (exists this',
     EventTraceMetadata.finish Sample.newYear2024 (Some (IsString "")) Sample.span
     = Ok this'
     /\ EventTraceMetadata.finishTimestamp this' = Some "2024-01-01T00:00:00.000Z"
     /\ EventTraceMetadata.finishTimestamp this' <> Some "")
  /\ EventTraceMetadata.finish Sample.newYear2024
       (Some (IsDate Sample.invalidDate)) Sample.span
     = Throw (RangeError "Invalid time value").
Proof.
  split; [|reflexivity].
  eexists. repeat split. discriminate.
Qed.

Lemma finish_sets_finishTimestamp_witness :
  EventTraceMetadata.finish 0 (Some (IsString "2024-01-01T00:00:00.000Z"))
    Sample.span
  = Ok (EventTraceMetadata.setFinishTimestamp "2024-01-01T00:00:00.000Z"
          Sample.span)
  /\ (forall this1,
        EventTraceMetadata.finish 0 None Sample.span = Ok this1 ->
        EventTraceMetadata.finish Sample.newYear2024
          (Some (IsString "2024-01-01T00:00:00.000Z")) this1
        = Ok (EventTraceMetadata.setFinishTimestamp "2024-01-01T00:00:00.000Z"
                Sample.span))
  /\ EventTraceMetadata.finish 0 (Some (IsDate Sample.invalidDate)) Sample.span
     = Throw (RangeError "Invalid time value").
Proof.
  split; [|split].
  - apply (proj1 (proj2 (finish_sets_finishTimestamp 0 Sample.span))).
    discriminate.
  - intros this1 H1.
    rewrite (proj1 (proj2 (proj2 (proj2
               (finish_sets_finishTimestamp Sample.newYear2024 Sample.span))))
               0%Z None this1 (Some (IsString "2024-01-01T00:00:00.000Z")) H1).
    reflexivity.
  - apply (proj1 (proj2 (proj2 (proj2 (proj2 (proj2 (proj2
             (finish_sets_finishTimestamp 0 Sample.span)))))))).
    reflexivity.
Defined.

(** C10.  An empty-string timestamp is treated as an omitted one: the
    constructor called with [startTimestamp = ""] behaves exactly as the
    constructor called without it, so a returned object keeps the clock's
    timestamp and not [""]; and [finish("")] behaves exactly as [finish()],
    setting [finishTimestamp] to the clock's timestamp and not to [""]. *)
Theorem empty_timestamp_is_omitted (now : Z) :
  (forall service traceId spanId parentSpanId sampled flags,
      EventTraceMetadata.new now service traceId spanId parentSpanId sampled
        flags (Some (IsString ""))
      = EventTraceMetadata.new now service traceId spanId parentSpanId sampled
          flags None)
  /\ (forall service traceId spanId parentSpanId sampled flags obj,
        EventTraceMetadata.new now service traceId spanId parentSpanId sampled
          flags (Some (IsString "")) = Ok obj ->
        EventTraceMetadata.startTimestamp obj = Some (Date.isoOfTime now)
        /\ EventTraceMetadata.startTimestamp obj <> Some "")
  /\ (forall this,
        EventTraceMetadata.finish now (Some (IsString "")) this
        = EventTraceMetadata.finish now None this
        /\ exists this',
             EventTraceMetadata.finish now (Some (IsString "")) this = Ok this'
             /\ EventTraceMetadata.finishTimestamp this' = Some (Date.isoOfTime now)
             /\ EventTraceMetadata.finishTimestamp this' <> Some "").
Proof.
  split; [reflexivity|]. split.
  - intros service traceId spanId parentSpanId sampled flags obj Hobj.
    apply new_Ok_inv in Hobj. destruct Hobj as [_ [_ [_ [start [Hst ->]]]]].
    cbn in *. subst start. split; [reflexivity|].
    intros H. injection H as H. exact (isoOfTime_nonempty now H).
  - intros this. split; [reflexivity|].
    eexists. split; [reflexivity|]. split; [reflexivity|].
    cbn. intros H. injection H as H. exact (isoOfTime_nonempty now H).
Qed.

Lemma empty_timestamp_is_omitted_witness :
  exists obj,
    EventTraceMetadata.new Sample.newYear2024 "svc-a" Sample.traceId
      Sample.spanId None None None (Some (IsString "")) = Ok obj
    /\ EventTraceMetadata.startTimestamp obj = Some "2024-01-01T00:00:00.000Z"
    /\ EventTraceMetadata.startTimestamp obj <> Some "".
Proof.
  eexists. split; [reflexivity|].
  apply (proj1 (proj2 (empty_timestamp_is_omitted Sample.newYear2024))
           "svc-a" Sample.traceId Sample.spanId None None None _ eq_refl).
Defined.

Lemma generated_ids_are_valid_witness :
  test TRACE_ID_REGEX
    (toHex [x00; x01; x7f; x80; xab; xcd; xef; xff;
            x10; x32; x54; x76; x98; xba; xdc; xfe]) = true.
Proof.
  apply (proj1 (proj2 (proj2 generated_ids_are_valid))). reflexivity.
Defined.

(* ================================================================== *)
(** * Further properties of the module *)

(** ** Which exception the [EventTraceMetadata] constructor throws *)

(** X1.  The constructor reports the first failing check, in the order
    [traceId], [spanId], [parentSpanId], [startTimestamp], and the message
    of an identifier error ends in the offending value: an invalid [traceId]
    gives [Error("Invalid traceId: <traceId>")] whatever the other arguments
    are; with a valid [traceId], an invalid [spanId] gives
    [Error("Invalid spanId: <spanId>")]; with both valid, a non-empty invalid
    [parentSpanId] gives [Error("Invalid parentSpanId: <parentSpanId>")];
    and only when all three pass does an Invalid Date give the
    [RangeError]. *)
Theorem constructor_reports_first_failure (now : Z)
    (service traceId spanId : string) (parentSpanId : option string)
    (sampled flags : option number) (startTimestamp : option StringOrDate) :
  let r := EventTraceMetadata.new now service traceId spanId parentSpanId
             sampled flags startTimestamp in
  (test TRACE_ID_REGEX traceId = false ->
   r = Throw (Error ("Invalid traceId: " ++ traceId)))
  /\ (test TRACE_ID_REGEX traceId = true ->
      test SPAN_ID_REGEX spanId = false ->
      r = Throw (Error ("Invalid spanId: " ++ spanId)))
  /\ (test TRACE_ID_REGEX traceId = true ->
      test SPAN_ID_REGEX spanId = true ->
      forall p, parentSpanId = Some p -> p <> "" ->
                test SPAN_ID_REGEX p = false ->
                r = Throw (Error ("Invalid parentSpanId: " ++ p)))
  /\ (test TRACE_ID_REGEX traceId = true ->
      test SPAN_ID_REGEX spanId = true ->
      parentAccepted parentSpanId = true ->
      isInvalidDate startTimestamp ->
      r = Throw (RangeError "Invalid time value")).
Proof.
  intros r. subst r. unfold EventTraceMetadata.new.
  cbn [Date.toISOString Date.new Date.timeValue bind].
  split; [|split; [|split]].
  - intros Ht. rewrite Ht. reflexivity.
  - intros Ht Hs. rewrite Ht, Hs. reflexivity.
  - intros Ht Hs p -> Hne Hp. rewrite Ht, Hs, Hp.
    apply truthy_true_iff in Hne. rewrite Hne. reflexivity.
  - intros Ht Hs Hp [d [-> Hd]]. rewrite Ht, Hs. cbn [negb throwIf bind].
    assert (Hguard : match parentSpanId with
                     | Some p => throwIf (truthy p && negb (test SPAN_ID_REGEX p))
                                   (Error ("Invalid parentSpanId: " ++ p))
                     | None => Ok tt
                     end = Ok tt).
    { destruct parentSpanId as [p|]; [|reflexivity].
      unfold parentAccepted in Hp.
      destruct (truthy p); cbn [negb orb andb] in Hp |- *;
        [rewrite Hp|]; reflexivity. }
    rewrite Hguard. cbn [bind]. unfold Date.toISOString. rewrite Hd. reflexivity.
Qed.

Lemma constructor_reports_first_failure_witness :
  EventTraceMetadata.new 0 "svc-a" "not-hex" "also-not-hex" (Some "zz")
    None None (Some (IsDate Sample.invalidDate))
  = Throw (Error "Invalid traceId: not-hex")
  /\ EventTraceMetadata.new 0 "svc-a" Sample.traceId "also-not-hex" (Some "zz")
       None None (Some (IsDate Sample.invalidDate))
     = Throw (Error "Invalid spanId: also-not-hex")
  /\ EventTraceMetadata.new 0 "svc-a" Sample.traceId Sample.spanId (Some "zz")
       None None (Some (IsDate Sample.invalidDate))
     = Throw (Error "Invalid parentSpanId: zz")
  /\ EventTraceMetadata.new 0 "svc-a" Sample.traceId Sample.spanId (Some "")
       None None (Some (IsDate Sample.invalidDate))
     = Throw (RangeError "Invalid time value").
Proof.
  split; [|split; [|split]].
  - apply (proj1 (constructor_reports_first_failure 0 "svc-a" "not-hex"
                    "also-not-hex" (Some "zz") None None
                    (Some (IsDate Sample.invalidDate)))).
    reflexivity.
  - apply (proj1 (proj2 (constructor_reports_first_failure 0 "svc-a"
                    Sample.traceId "also-not-hex" (Some "zz") None None
                    (Some (IsDate Sample.invalidDate))))); reflexivity.
  - apply (proj1 (proj2 (proj2 (constructor_reports_first_failure 0 "svc-a"
                    Sample.traceId Sample.spanId (Some "zz") None None
                    (Some (IsDate Sample.invalidDate))))) eq_refl eq_refl
             "zz" eq_refl); [discriminate | reflexivity].
  - apply (proj2 (proj2 (proj2 (constructor_reports_first_failure 0 "svc-a"
                    Sample.traceId Sample.spanId (Some "") None None
                    (Some (IsDate Sample.invalidDate))))));
      try reflexivity.
    exists Sample.invalidDate. split; reflexivity.
Defined.

(** ** The state a span is in *)

Lemma toISOString_nonempty (d : Date.t) (iso : string) :
  Date.toISOString d = Ok iso -> iso <> "".
Proof.
  unfold Date.toISOString. destruct (Date.timeValue d) as [tv|]; [|discriminate].
  intros H. injection H as <-. apply isoOfTime_nonempty.
Qed.

Lemma parentAccepted_iff (p : option string) :
  parentAccepted p = true <->
  match p with
  | Some q => truthy q && negb (test SPAN_ID_REGEX q) = false
  | None => True
  end.
Proof.
  unfold parentAccepted. destruct p as [q|]; [|tauto].
  destruct (truthy q), (test SPAN_ID_REGEX q); cbn [andb orb negb];
    split; intros H; solve [reflexivity | discriminate H].
Qed.

(** X2.  Every object the constructor returns is well formed: its
    [traceId] and [spanId] pass their checks, its [parentSpanId] is absent,
    empty or a valid span id, its [startTimestamp] is a non-empty string, and
    its [finishTimestamp] is still undefined. *)
Theorem constructed_span_is_wellFormed (now : Z)
    (service traceId spanId : string) (parentSpanId : option string)
    (sampled flags : option number) (startTimestamp : option StringOrDate)
    (obj : EventTraceMetadata.t) :
  EventTraceMetadata.new now service traceId spanId parentSpanId sampled flags
    startTimestamp = Ok obj ->
  wellFormed obj /\ EventTraceMetadata.finishTimestamp obj = None.
Proof.
  intros Hobj. apply new_Ok_inv in Hobj.
  destruct Hobj as [Ht [Hs [Hp [start [Hst ->]]]]].
  split; [|reflexivity]. unfold wellFormed. cbn.
  split; [exact Ht|]. split; [exact Hs|].
  split; [apply parentAccepted_iff, Hp|].
  split; [|left; reflexivity].
  exists start. split; [reflexivity|].
  destruct startTimestamp as [[s|d]|].
  - destruct (truthy s) eqn:Hs'; subst start.
    + apply truthy_true_iff, Hs'.
    + apply isoOfTime_nonempty.
  - apply (toISOString_nonempty d Hst).
  - subst start. apply isoOfTime_nonempty.
Qed.

Lemma constructed_span_is_wellFormed_witness :
  wellFormed Sample.span /\ EventTraceMetadata.finishTimestamp Sample.span = None.
Proof.
  apply (@constructed_span_is_wellFormed 0 "svc-a" Sample.traceId Sample.spanId
           None None None None Sample.span).
  reflexivity.
Defined.

Lemma sample_span_wellFormed : wellFormed Sample.span.
Proof.
  unfold wellFormed. cbn.
  split; [reflexivity|]. split; [reflexivity|]. split; [reflexivity|].
  split; [|left; reflexivity].
  eexists. split; [reflexivity | discriminate].
Qed.

Lemma finish_Ok_timestamp (now : Z) (a : option StringOrDate)
    (this this' : EventTraceMetadata.t) :
  EventTraceMetadata.finish now a this = Ok this' ->
  exists v, v <> "" /\ this' = EventTraceMetadata.setFinishTimestamp v this.
Proof.
  unfold EventTraceMetadata.finish.
  cbn [Date.toISOString Date.new Date.timeValue bind].
  destruct a as [[s|d]|].
  - destruct (truthy s) eqn:Hs; cbn [negb]; intros H; injection H as <-.
    + exists s. split; [apply truthy_true_iff, Hs | reflexivity].
    + exists (Date.isoOfTime now). split; [apply isoOfTime_nonempty | reflexivity].
  - destruct (Date.toISOString d) as [iso|e] eqn:Hd; cbn [bind]; [|discriminate].
    intros H; injection H as <-.
    exists iso. split; [apply (toISOString_nonempty d Hd) | reflexivity].
  - intros H; injection H as <-.
    exists (Date.isoOfTime now). split; [apply isoOfTime_nonempty | reflexivity].
Qed.

Lemma finish_throws_iff (now : Z) (a : option StringOrDate)
    (this : EventTraceMetadata.t) :
  (exists e, EventTraceMetadata.finish now a this = Throw e) <-> isInvalidDate a.
Proof.
  unfold EventTraceMetadata.finish, isInvalidDate, Date.toISOString.
  cbn [Date.new Date.timeValue bind].
  destruct a as [[s|[[tv|]]]|]; cbn [Date.timeValue bind].
  - destruct (negb (truthy s));
      (split; [intros [e H]|intros [d [H _]]]); discriminate H.
  - split; [intros [e H]; discriminate H|intros [d [H Hd]]].
    injection H as <-. discriminate Hd.
  - split; [intros _|intros _; eexists; reflexivity].
    eexists; split; reflexivity.
  - split; [intros [e H]|intros [d [H _]]]; discriminate H.
Qed.

(** X3.  [finish] throws exactly when its argument is an Invalid Date, and
    then the exception is the [RangeError] of [toISOString]; no string and no
    omitted argument makes it throw, and it never refuses an instance for
    the state it is in. *)
Theorem finish_throws_only_on_invalid_date (now : Z)
    (a : option StringOrDate) (this : EventTraceMetadata.t) :
  ((exists e, EventTraceMetadata.finish now a this = Throw e)
   <-> isInvalidDate a)
  /\ (forall e, EventTraceMetadata.finish now a this = Throw e ->
                e = RangeError "Invalid time value")
  /\ (forall s, exists this',
        EventTraceMetadata.finish now (Some (IsString s)) this = Ok this')
  /\ (exists this', EventTraceMetadata.finish now None this = Ok this').
Proof.
  split; [apply finish_throws_iff|]. split; [|split].
  - unfold EventTraceMetadata.finish, Date.toISOString.
    cbn [Date.new Date.timeValue bind].
    destruct a as [[s|[[tv|]]]|]; cbn [Date.timeValue bind]; intros e H;
      try discriminate H.
    + destruct (negb (truthy s)); discriminate H.
    + injection H as <-. reflexivity.
  - intros s. unfold EventTraceMetadata.finish.
    destruct (negb (truthy s)); eexists; reflexivity.
  - eexists; reflexivity.
Qed.

Lemma finish_throws_only_on_invalid_date_witness :
  EventTraceMetadata.finish 0 (Some (IsDate Sample.invalidDate)) Sample.span
  = Throw (RangeError "Invalid time value").
Proof.
  destruct (EventTraceMetadata.finish 0 (Some (IsDate Sample.invalidDate))
              Sample.span) as [this'|e] eqn:H.
  - discriminate H.
  - f_equal.
    exact (proj1 (proj2 (finish_throws_only_on_invalid_date 0
                           (Some (IsDate Sample.invalidDate)) Sample.span))
             e H).
Defined.

Lemma finish_keeps_wellFormed (now : Z) (a : option StringOrDate)
    (this this' : EventTraceMetadata.t) :
  wellFormed this ->
  EventTraceMetadata.finish now a this = Ok this' ->
  wellFormed this' /\ sameSpan this this'
  /\ isTimestamp (EventTraceMetadata.finishTimestamp this').
Proof.
  intros [Ht [Hs [Hp [Hst _]]]] H.
  apply finish_Ok_timestamp in H. destruct H as [v [Hv ->]].
  assert (Hfin : isTimestamp (EventTraceMetadata.finishTimestamp
                                (EventTraceMetadata.setFinishTimestamp v this))).
  { exists v. split; [reflexivity | exact Hv]. }
  split; [|split; [|exact Hfin]].
  - unfold wellFormed. cbn [EventTraceMetadata.setFinishTimestamp
      EventTraceMetadata.traceId EventTraceMetadata.spanId
      EventTraceMetadata.parentSpanId EventTraceMetadata.startTimestamp].
    repeat (split; [assumption|]). right. exact Hfin.
  - unfold sameSpan. cbn. repeat split.
Qed.

Lemma sameSpan_trans (a b c : EventTraceMetadata.t) :
  sameSpan a b -> sameSpan b c -> sameSpan a c.
Proof.
  unfold sameSpan. intros H1 H2.
  destruct H1 as [? [? [? [? [? [? ?]]]]]]. destruct H2 as [? [? [? [? [? [? ?]]]]]].
  repeat split; congruence.
Qed.

Lemma sameSpan_refl (a : EventTraceMetadata.t) : sameSpan a a.
Proof. unfold sameSpan. repeat split. Qed.

(** X4.  Finishing a well-formed span any number of times, with any
    arguments other than an Invalid Date, always succeeds and keeps it well
    formed: [service], [traceId], [spanId], [parentSpanId], [sampled],
    [flags] and [startTimestamp] are never touched, and after at least one
    call [finishTimestamp] is a non-empty string. *)
Theorem finishAll_keeps_span (calls : list (Z * option StringOrDate))
    (this : EventTraceMetadata.t) :
  wellFormed this ->
  (forall c, In c calls -> ~ isInvalidDate (snd c)) ->
  exists this',
    finishAll calls this = Ok this'
    /\ wellFormed this'
    /\ sameSpan this this'
    /\ (calls <> [] -> isTimestamp (EventTraceMetadata.finishTimestamp this')).
Proof.
  revert this. induction calls as [|[now a] rest IH]; intros this Hwf Hvalid.
  - exists this. split; [reflexivity|]. split; [exact Hwf|].
    split; [apply sameSpan_refl|]. intros H. contradiction H. reflexivity.
  - cbn [finishAll].
    destruct (EventTraceMetadata.finish now a this) as [this1|e] eqn:H1.
    + cbn [bind].
      destruct (@finish_keeps_wellFormed now a this this1 Hwf H1)
        as [Hwf1 [Hsame1 Hfin1]].
      destruct (IH this1 Hwf1) as [this' [Hrun [Hwf' [Hsame' Hfin']]]].
      { intros c Hc. apply Hvalid. right. exact Hc. }
      exists this'. split; [exact Hrun|]. split; [exact Hwf'|].
      split; [exact (@sameSpan_trans this this1 this' Hsame1 Hsame')|].
      intros _. destruct rest as [|c rest'].
      * cbn in Hrun. injection Hrun as <-. exact Hfin1.
      * apply Hfin'. discriminate.
    + exfalso. apply (Hvalid (now, a)); [left; reflexivity|].
      apply (finish_throws_iff now a this). exists e. exact H1.
Qed.

Lemma finishAll_keeps_span_witness :
  exists this',
    finishAll [(1%Z, None); (2%Z, Some (IsString ""));
               (3%Z, Some (IsString "2024-01-01T00:00:00.000Z"))] Sample.span
    = Ok this'
    /\ wellFormed this'
    /\ sameSpan Sample.span this'
    /\ ([(1%Z, None : option StringOrDate); (2%Z, Some (IsString ""));
         (3%Z, Some (IsString "2024-01-01T00:00:00.000Z"))] <> [] ->
        isTimestamp (EventTraceMetadata.finishTimestamp this')).
Proof.
  apply finishAll_keeps_span.
  - exact sample_span_wellFormed.
  - intros c [<-|[<-|[<-|[]]]] [d [H _]]; discriminate H.
Defined.

(** X5.  The class accepts every state it produces and reproduces it
    exactly: calling the constructor with the fields of a well-formed span
    (its [startTimestamp] passed as a string), followed by [finish] with its
    [finishTimestamp] when it has one, returns that very span, at any clock
    reading. *)
Theorem span_rebuilds_from_its_fields (now : Z) (obj : EventTraceMetadata.t) :
  wellFormed obj ->
  (rebuilt <- EventTraceMetadata.new now
                (EventTraceMetadata.service obj)
                (EventTraceMetadata.traceId obj)
                (EventTraceMetadata.spanId obj)
                (EventTraceMetadata.parentSpanId obj)
                (EventTraceMetadata.sampled obj)
                (EventTraceMetadata.flags obj)
                (option_map IsString (EventTraceMetadata.startTimestamp obj)) ;;
   match EventTraceMetadata.finishTimestamp obj with
   | Some finished =>
       EventTraceMetadata.finish now (Some (IsString finished)) rebuilt
   | None => Ok rebuilt
   end) = Ok obj.
Proof.
  destruct obj as [service traceId spanId parentSpanId sampled flags start fin].
  unfold wellFormed. cbn [EventTraceMetadata.service EventTraceMetadata.traceId
    EventTraceMetadata.spanId EventTraceMetadata.parentSpanId
    EventTraceMetadata.sampled EventTraceMetadata.flags
    EventTraceMetadata.startTimestamp EventTraceMetadata.finishTimestamp].
  intros [Ht [Hs [Hp [[s [-> Hne]] Hfin]]]].
  apply truthy_true_iff in Hne.
  rewrite (@new_valid now service traceId spanId parentSpanId sampled flags
             (option_map IsString (Some s)) s Ht Hs
             (proj1 (parentAccepted_iff parentSpanId) Hp));
    [|cbn; rewrite Hne; reflexivity].
  cbn [bind]. destruct Hfin as [->|[f [-> Hf]]]; [reflexivity|].
  unfold EventTraceMetadata.finish. apply truthy_true_iff in Hf. rewrite Hf.
  reflexivity.
Qed.

Lemma span_rebuilds_from_its_fields_witness :
  EventTraceMetadata.new Sample.newYear2024 "svc-a" Sample.traceId Sample.spanId
    None None None (Some (IsString "1970-01-01T00:00:00.000Z"))
  = Ok Sample.span.
Proof.
  exact (@span_rebuilds_from_its_fields Sample.newYear2024 Sample.span
           sample_span_wellFormed).
Defined.

(** ** [EventMetadata]: the constructor *)

(** X6.  The [EventMetadata] constructor throws exactly when [createdAt] is
    an Invalid Date.  A string [createdAt] is stored as it is, the empty
    string included (there is no fallback to the clock here), and a [Date]
    is stored in its ISO 8601 form; [id], [state] and [responseTo] are
    stored unchanged.  So none of the five factories, whose [createdAt] is a
    string, ever throws. *)
Theorem metadata_constructor_behaviour (id : string)
    (typeAction : EventTypeAction.t) (state : EventStateMetadata.t)
    (responseTo : option string) :
  (forall createdAt,
      (exists e, EventMetadata.new id typeAction createdAt state responseTo
                 = Throw e)
      <-> exists d, createdAt = IsDate d /\ Date.timeValue d = None)
  /\ (forall createdAt m,
        EventMetadata.new id typeAction createdAt state responseTo = Ok m ->
        EventMetadata.id m = id
        /\ EventMetadata.state m = state
        /\ EventMetadata.responseTo m = responseTo
        /\ match createdAt with
           | IsString s => EventMetadata.createdAt m = s
           | IsDate d => Date.toISOString d = Ok (EventMetadata.createdAt m)
           end)
  /\ (forall s, exists m,
        EventMetadata.new id typeAction (IsString s) state responseTo = Ok m
        /\ EventMetadata.create id typeAction s state responseTo = Ok m
        /\ EventMetadata.createdAt m = s).
Proof.
  split; [|split].
  - intros createdAt. unfold EventMetadata.new, Date.toISOString.
    destruct createdAt as [s|[[tv|]]]; cbn [Date.timeValue bind].
    + split; [intros [e H]|intros [d [H _]]]; discriminate H.
    + split; [intros [e H]; discriminate H|intros [d [H Hd]]].
      injection H as <-. discriminate Hd.
    + split; [intros _; eexists; split; reflexivity|intros _; eexists; reflexivity].
  - intros createdAt m. unfold EventMetadata.new.
    destruct createdAt as [s|d]; cbn [bind].
    + intros H. injection H as <-. repeat split.
    + destruct (Date.toISOString d) as [iso|e]; cbn [bind]; [|discriminate].
      intros H. injection H as <-. repeat split.
  - intros s. eexists. repeat split.
Qed.

Lemma metadata_constructor_behaviour_witness :
  EventMetadata.createdAt
    {| EventMetadata.id := "e-1";
       EventMetadata.type := EventType.audit;
       EventMetadata.action := EventAction.Null NullEventAction.undefined;
       EventMetadata.createdAt := "";
       EventMetadata.state := Sample.succeeded;
       EventMetadata.responseTo := None |} = "".
Proof.
  apply (proj1 (proj2 (metadata_constructor_behaviour "e-1"
           (AuditEventTypeAction (NoAction NullEventAction.undefined))
           Sample.succeeded None)) (IsString "") _ eq_refl).
Defined.

(** X7.  An [EventMetadata] never has the type "undefined": the constructor
    always overwrites the field's initial value with the type of one of the
    four concrete classes, and its action is legal for that type or is
    "undefined".  The four typed factories ([log], [trace], [audit],
    [error]) go further: the action they store is never "undefined" and is
    always legal for the type they store. *)
Theorem metadata_type_and_action_are_compatible (id : string)
    (state : EventStateMetadata.t) (responseTo : option string) :
  (forall typeAction createdAt m,
      EventMetadata.new id typeAction createdAt state responseTo = Ok m ->
      EventMetadata.type m <> EventType.undefined
      /\ (In (EventAction.value (EventMetadata.action m))
             (legalActions (EventMetadata.type m))
          \/ EventAction.value (EventMetadata.action m) = "undefined"))
  /\ (forall createdAt r,
        ((exists a, r = EventMetadata.log id a createdAt state responseTo)
         \/ (exists a, r = EventMetadata.trace id a createdAt state responseTo)
         \/ (exists a, r = EventMetadata.audit id a createdAt state responseTo)
         \/ (exists a, r = EventMetadata.error id a createdAt state responseTo)) ->
        exists m,
          r = Ok m
          /\ EventMetadata.type m <> EventType.undefined
          /\ EventAction.value (EventMetadata.action m) <> "undefined"
          /\ In (EventAction.value (EventMetadata.action m))
                (legalActions (EventMetadata.type m))).
Proof.
  split.
  - intros typeAction createdAt m. unfold EventMetadata.new.
    destruct (match createdAt with
              | IsString s => Ok s
              | IsDate d => Date.toISOString d
              end) as [created|e]; cbn [bind]; [|discriminate].
    intros H. injection H as <-. cbn [EventMetadata.type EventMetadata.action].
    split; [destruct typeAction; discriminate|].
    apply action_is_legal_or_undefined.
  - intros createdAt r [[a ->]|[[a ->]|[[a ->]|[a ->]]]];
      eexists; (split; [reflexivity|]);
      cbn [EventMetadata.type EventMetadata.action];
      destruct a; cbn; (split; [discriminate|]); (split; [discriminate|]); tauto.
Qed.

Lemma metadata_type_and_action_are_compatible_witness :
  exists m,
    EventMetadata.audit "e-1" AuditEventAction.default
      "2024-01-15T10:30:00.000Z" Sample.succeeded None = Ok m
    /\ EventMetadata.type m <> EventType.undefined
    /\ EventAction.value (EventMetadata.action m) <> "undefined"
    /\ In (EventAction.value (EventMetadata.action m))
          (legalActions (EventMetadata.type m)).
Proof.
  apply (proj2 (metadata_type_and_action_are_compatible "e-1"
                  Sample.succeeded None) "2024-01-15T10:30:00.000Z").
  right; right; left. exists AuditEventAction.default. reflexivity.
Defined.

(** ** Actions as runtime strings *)

Lemma EventAction_value_inj (x y : EventAction.t) :
  EventAction.value x = EventAction.value y -> x = y.
Proof.
  destruct x as [[]|[]|[]|[]|[]], y as [[]|[]|[]|[]|[]]; cbn;
    intros H; solve [reflexivity | discriminate H].
Qed.

(** X8.  At run time an action is only its string, and the strings of the
    five action enums are pairwise different: two actions with the same
    string are the same enum member, and two [EventTypeAction] instances that
    carry the same string other than "undefined" are instances of the same
    class.  ("undefined" alone is shared by all four classes.) *)
Theorem action_string_identifies_class :
  (forall x y : EventAction.t,
      EventAction.value x = EventAction.value y -> x = y)
  /\ (forall ta tb : EventTypeAction.t,
        EventAction.value (EventTypeAction.action ta)
        = EventAction.value (EventTypeAction.action tb) ->
        EventAction.value (EventTypeAction.action ta) <> "undefined" ->
        EventTypeAction.getType ta = EventTypeAction.getType tb /\ ta = tb)
  /\ (forall c, c <> EventType.undefined ->
        exists ta, EventTypeAction.getType ta = c
                   /\ EventAction.value (EventTypeAction.action ta) = "undefined").
Proof.
  split; [exact EventAction_value_inj|]. split.
  - intros ta tb Heq Hne. apply EventAction_value_inj in Heq.
    destruct ta as [[a|[]]|[a|[]]|[a|[]]|[a|[]]];
      try (exfalso; apply Hne; reflexivity);
      destruct tb as [[b|[]]|[b|[]]|[b|[]]|[b|[]]]; cbn in Heq;
      try discriminate Heq; injection Heq as <-; split; reflexivity.
  - intros c Hc. destruct c; [contradiction Hc; reflexivity| | | |].
    + exists (LogEventTypeAction (NoAction NullEventAction.undefined)). split; reflexivity.
    + exists (AuditEventTypeAction (NoAction NullEventAction.undefined)). split; reflexivity.
    + exists (ErrorEventTypeAction (NoAction NullEventAction.undefined)). split; reflexivity.
    + exists (TraceEventTypeAction (NoAction NullEventAction.undefined)). split; reflexivity.
Qed.

Lemma action_string_identifies_class_witness :
  EventTypeAction.getType (ErrorEventTypeAction (Action ErrorEventAction.external))
  = EventTypeAction.getType (ErrorEventTypeAction (Action ErrorEventAction.external))
  /\ ErrorEventTypeAction (Action ErrorEventAction.external)
     = ErrorEventTypeAction (Action ErrorEventAction.external).
Proof.
  apply (proj1 (proj2 action_string_identifies_class)
           (ErrorEventTypeAction (Action ErrorEventAction.external))
           (ErrorEventTypeAction (Action ErrorEventAction.external)) eq_refl).
  discriminate.
Defined.

(** ** Hex encoding and the generators *)

Lemma hexDigit_code (i : nat) :
  (i < 16)%nat ->
  N_of_ascii (hexDigit (N.of_nat i))
  = (if (i <? 10)%nat then 48 + N.of_nat i else 87 + N.of_nat i)%N.
Proof.
  intros Hi.
  do 16 (destruct i as [|i]; [reflexivity|]). lia.
Qed.

Lemma hexDigit_inj (m n : N) :
  (m < 16)%N -> (n < 16)%N -> hexDigit m = hexDigit n -> m = n.
Proof.
  intros Hm Hn H. apply (f_equal N_of_ascii) in H.
  rewrite <- (N2Nat.id m), <- (N2Nat.id n) in H.
  rewrite !hexDigit_code in H by lia.
  destruct (Nat.ltb_spec (N.to_nat m) 10), (Nat.ltb_spec (N.to_nat n) 10); lia.
Qed.

Lemma byte_of_hexDigits (b c : byte) :
  hexDigit (Byte.to_N b / 16) = hexDigit (Byte.to_N c / 16) ->
  hexDigit (Byte.to_N b mod 16) = hexDigit (Byte.to_N c mod 16) ->
  b = c.
Proof.
  intros Hhi Hlo.
  pose proof (Byte.to_N_bounded b). pose proof (Byte.to_N_bounded c).
  apply hexDigit_inj in Hhi;
    [|apply N.Div0.div_lt_upper_bound; lia|apply N.Div0.div_lt_upper_bound; lia].
  apply hexDigit_inj in Hlo; [|apply N.mod_lt; lia|apply N.mod_lt; lia].
  assert (Heq : Byte.to_N b = Byte.to_N c).
  { rewrite (N.div_mod (Byte.to_N b) 16), (N.div_mod (Byte.to_N c) 16) by lia.
    rewrite Hhi, Hlo. reflexivity. }
  pose proof (Byte.of_to_N b) as Hb. pose proof (Byte.of_to_N c) as Hc.
  rewrite Heq in Hb. congruence.
Qed.

Lemma toHex_inj (buf : list byte) : forall buf' : list byte,
  toHex buf = toHex buf' -> buf = buf'.
Proof.
  induction buf as [|b buf IH]; intros [|c buf'] H; cbn [toHex] in H;
    try discriminate H; [reflexivity|].
  injection H as Hhi Hlo Hrest.
  f_equal; [exact (byte_of_hexDigits b c Hhi Hlo) | exact (IH _ Hrest)].
Qed.

(** X9.  Hex encoding loses nothing: two byte sequences with the same
    encoding are equal, and the encoding of [n] bytes has [2 n] characters.
    So two calls of [newTraceId] (or of [newSpanId]) return the same
    identifier exactly when the random source delivered the same 16 (or 8)
    bytes. *)
Theorem hex_ids_determine_their_bytes :
  (forall buf buf' : list byte, toHex buf = toHex buf' -> buf = buf')
  /\ (forall buf : list byte,
        String.length (toHex buf) = (2 * List.length buf)%nat)
  /\ (forall src src' : RandomSource,
        fst (newTraceId src) = fst (newTraceId src')
        <-> forall i, (i < 16)%nat -> src i = src' i)
  /\ (forall src src' : RandomSource,
        fst (newSpanId src) = fst (newSpanId src')
        <-> forall i, (i < 8)%nat -> src i = src' i).
Proof.
  assert (Hgen : forall n (src src' : RandomSource),
             toHex (map src (seq 0 n)) = toHex (map src' (seq 0 n))
             <-> forall i, (i < n)%nat -> src i = src' i).
  { intros n src src'. split.
    - intros H i Hi. apply toHex_inj in H.
      assert (Hin : In i (seq 0 n)) by (apply in_seq; lia).
      revert Hin. generalize (seq 0 n) H. clear.
      intros l. induction l as [|x l IH]; cbn; intros H Hin; [contradiction|].
      injection H as Hx Hl. destruct Hin as [->|Hin]; [exact Hx | exact (IH Hl Hin)].
    - intros H. f_equal. apply map_ext_in. intros i Hi.
      apply in_seq in Hi. apply H. lia. }
  split; [exact toHex_inj|]. split; [exact toHex_length|].
  split; intros src src'; [exact (Hgen 16%nat src src') | exact (Hgen 8%nat src src')].
Qed.

Lemma hex_ids_determine_their_bytes_witness :
  [x0a; xff] = [x0a; xff].
Proof.
  apply (proj1 hex_ids_determine_their_bytes [x0a; xff] [x0a; xff]).
  reflexivity.
Defined.

(** X10.  Identifiers drawn from the generators are always accepted by the
    constructor: with a trace id, a span id and a parent span id generated
    one after the other from any random source, and no [startTimestamp],
    construction succeeds and stores the three identifiers. *)
Theorem generated_ids_construct (now : Z) (service : string)
    (sampled flags : option number) (src : RandomSource) :
  let (traceId, src1) := newTraceId src in
  let (spanId, src2) := newSpanId src1 in
  let (parentSpanId, src3) := newSpanId src2 in
  exists obj,
    EventTraceMetadata.new now service traceId spanId (Some parentSpanId)
      sampled flags None = Ok obj
    /\ EventTraceMetadata.traceId obj = traceId
    /\ EventTraceMetadata.spanId obj = spanId
    /\ EventTraceMetadata.parentSpanId obj = Some parentSpanId
    /\ wellFormed obj.
Proof.
  destruct (newTraceId src) as [traceId src1] eqn:H1.
  destruct (newSpanId src1) as [spanId src2] eqn:H2.
  destruct (newSpanId src2) as [parentSpanId src3] eqn:H3.
  assert (Ht : test TRACE_ID_REGEX traceId = true).
  { change traceId with (fst (traceId, src1)). rewrite <- H1.
    unfold newTraceId. destruct (randomBytes 16 src) as [buf s'] eqn:Hr. cbn [fst].
    apply (toHex_accepted (n := 16)).
    rewrite <- (randomBytes_length 16 src), Hr. reflexivity. }
  assert (Hspan : forall s0, test SPAN_ID_REGEX (fst (newSpanId s0)) = true).
  { intros s0. unfold newSpanId.
    destruct (randomBytes 8 s0) as [buf s'] eqn:Hr. cbn [fst].
    apply (toHex_accepted (n := 8)).
    rewrite <- (randomBytes_length 8 s0), Hr. reflexivity. }
  assert (Hs : test SPAN_ID_REGEX spanId = true).
  { change spanId with (fst (spanId, src2)). rewrite <- H2. apply Hspan. }
  assert (Hp : test SPAN_ID_REGEX parentSpanId = true).
  { change parentSpanId with (fst (parentSpanId, src3)). rewrite <- H3. apply Hspan. }
  eexists. split.
  - apply (@new_valid now service traceId spanId (Some parentSpanId) sampled
             flags None (Date.isoOfTime now) Ht Hs).
    + rewrite Hp. apply andb_false_r.
    + reflexivity.
  - unfold wellFormed.
    cbn [EventTraceMetadata.traceId EventTraceMetadata.spanId
         EventTraceMetadata.parentSpanId EventTraceMetadata.startTimestamp
         EventTraceMetadata.finishTimestamp].
    split; [reflexivity|]. split; [reflexivity|]. split; [reflexivity|].
    split; [exact Ht|]. split; [exact Hs|]. split; [|split].
    + unfold parentAccepted. rewrite Hp. apply orb_true_r.
    + eexists. split; [reflexivity | apply isoOfTime_nonempty].
    + left. reflexivity.
Qed.

(** ** Trace ids and span ids cannot be confused *)

Lemma valid_trace_is_no_span (s : string) :
  test TRACE_ID_REGEX s = true -> test SPAN_ID_REGEX s = false.
Proof.
  intros H. apply TRACE_ID_REGEX_iff in H. destruct H as [Hlen _].
  change SPAN_ID_REGEX with (anchoredClass sourceHexClass 16).
  rewrite test_sourceHex, Hlen. reflexivity.
Qed.

Lemma valid_span_is_no_trace (s : string) :
  test SPAN_ID_REGEX s = true -> test TRACE_ID_REGEX s = false.
Proof.
  intros H. apply SPAN_ID_REGEX_iff in H. destruct H as [Hlen _].
  change TRACE_ID_REGEX with (anchoredClass sourceHexClass 32).
  rewrite test_sourceHex, Hlen. reflexivity.
Qed.

(** X11.  No string passes both identifier checks, so the constructor never
    accepts swapped identifiers: whenever a call succeeds, the same call
    with [traceId] and [spanId] exchanged throws
    [Error("Invalid traceId: <spanId>")], and the same call with the trace id
    given as [parentSpanId] throws [Error("Invalid parentSpanId: <traceId>")]. *)
Theorem swapped_ids_are_rejected (now : Z) (service traceId spanId : string)
    (parentSpanId : option string) (sampled flags : option number)
    (startTimestamp : option StringOrDate) (obj : EventTraceMetadata.t) :
  EventTraceMetadata.new now service traceId spanId parentSpanId sampled flags
    startTimestamp = Ok obj ->
  test SPAN_ID_REGEX traceId = false
  /\ test TRACE_ID_REGEX spanId = false
  /\ EventTraceMetadata.new now service spanId traceId parentSpanId sampled
       flags startTimestamp
     = Throw (Error ("Invalid traceId: " ++ spanId))
  /\ EventTraceMetadata.new now service traceId spanId (Some traceId) sampled
       flags startTimestamp
     = Throw (Error ("Invalid parentSpanId: " ++ traceId)).
Proof.
  intros Hobj. apply new_Ok_inv in Hobj. destruct Hobj as [Ht [Hs _]].
  pose proof (valid_trace_is_no_span traceId Ht) as Hts.
  pose proof (valid_span_is_no_trace spanId Hs) as Hst.
  split; [exact Hts|]. split; [exact Hst|]. split.
  - unfold EventTraceMetadata.new.
    cbn [Date.toISOString Date.new Date.timeValue bind]. rewrite Hst. reflexivity.
  - unfold EventTraceMetadata.new.
    cbn [Date.toISOString Date.new Date.timeValue bind]. rewrite Ht, Hs, Hts.
    assert (Hne : truthy traceId = true).
    { apply truthy_true_iff. intros ->. discriminate Ht. }
    rewrite Hne. reflexivity.
Qed.

Lemma swapped_ids_are_rejected_witness :
  test SPAN_ID_REGEX Sample.traceId = false
  /\ test TRACE_ID_REGEX Sample.spanId = false
  /\ EventTraceMetadata.new 0 "svc-a" Sample.spanId Sample.traceId None None
       None None
     = Throw (Error ("Invalid traceId: " ++ Sample.spanId))
  /\ EventTraceMetadata.new 0 "svc-a" Sample.traceId Sample.spanId
       (Some Sample.traceId) None None None
     = Throw (Error ("Invalid parentSpanId: " ++ Sample.traceId)).
Proof.
  apply (@swapped_ids_are_rejected 0 "svc-a" Sample.traceId Sample.spanId None
           None None None Sample.span).
  reflexivity.
Defined.
